(** * Claude-to-Gemini chat converter: a shallow embedding of
      [streamlit_app.py] and its verified properties.

    The converter receives whatever [json.load] produced, walks the
    [chat_messages] of that value and returns a Gemini document together
    with token statistics.  Python values are embedded as the inductive
    [pyval]; exceptions as the error monad [result]; the two dictionaries
    that the function mutates ([converted] and [token_stats]) are threaded
    through the loops as an explicit state. *)

From Stdlib Require Import String Ascii.
From Stdlib Require Import List Bool Arith NArith ZArith Lia.
From Stdlib Require Import Floats.SpecFloat.
Import ListNotations.

Set Implicit Arguments.

(* ================================================================= *)
(** ** Python strings *)

(** A Python [str] is a sequence of Unicode code points. *)
Definition pystr := list N.

(** A source-code string literal (all literals of the program are ASCII). *)
Definition lit (s : string) : pystr :=
  map N_of_ascii (list_ascii_of_string s).

Fixpoint str_eqb (a b : pystr) : bool :=
  match a, b with
  | [], [] => true
  | x :: a', y :: b' => N.eqb x y && str_eqb a' b'
  | _, _ => false
  end.

(** [str.isspace] on one code point: the table of CPython's
    [_PyUnicode_IsWhitespace]. *)
Definition isspace (c : N) : bool :=
  ((9 <=? c) && (c <=? 13) || (28 <=? c) && (c <=? 32)
   || (c =? 133) || (c =? 160) || (c =? 5760)
   || (8192 <=? c) && (c <=? 8202)
   || (c =? 8232) || (c =? 8233) || (c =? 8239) || (c =? 8287)
   || (c =? 12288))%N.

Fixpoint lstrip (s : pystr) : pystr :=
  match s with
  | [] => []
  | c :: s' => if isspace c then lstrip s' else s
  end.

Definition rstrip (s : pystr) : pystr := rev (lstrip (rev s)).

(** [s.strip()] *)
Definition strip (s : pystr) : pystr := rstrip (lstrip s).

(** [s.startswith(p)] *)
Fixpoint startswith (p s : pystr) : bool :=
  match p, s with
  | [], _ => true
  | _ :: _, [] => false
  | a :: p', b :: s' => N.eqb a b && startswith p' s'
  end.

(** [s.endswith(p)] *)
Definition endswith (p s : pystr) : bool := startswith (rev p) (rev s).

(** The scan of [str.replace] for a non-empty [old]: occurrences are
    taken leftmost first and do not overlap.  [skip] counts the code
    points of the occurrence just replaced that are still to be dropped. *)
Fixpoint replace_from (old new : pystr) (skip : nat) (s : pystr) : pystr :=
  match s with
  | [] => []
  | c :: s' =>
      match skip with
      | S k => replace_from old new k s'
      | O =>
          if startswith old s
          then new ++ replace_from old new (length old - 1) s'
          else c :: replace_from old new 0 s'
      end
  end.

(** [s.replace(old, new)]; with an empty [old] Python puts [new] before
    every code point and at the end. *)
Definition str_replace (old new s : pystr) : pystr :=
  match old with
  | [] => new ++ flat_map (fun c => c :: new) s
  | _ :: _ => replace_from old new 0 s
  end.

(** [old in s] *)
Fixpoint occurs (old s : pystr) : bool :=
  startswith old s
  || match s with [] => false | _ :: s' => occurs old s' end.

(** An occurrence of [old] in [base ++ rest] that starts inside [base]. *)
Fixpoint occurs_early (old base rest : pystr) : bool :=
  match base with
  | [] => false
  | _ :: base' =>
      startswith old (base ++ rest) || occurs_early old base' rest
  end.

(* ================================================================= *)
(** ** Python values, as [json.load] builds them *)

(** A [dict] is kept as its items in insertion order.  The keys of a real
    dictionary are pairwise distinct; lookup takes the first binding, so
    nothing below depends on that. *)
#[warnings="-register-all"]
Inductive pyval : Type :=
| PNone
| PBool (b : bool)
| PInt (n : Z)
| PFloat (f : spec_float)
| PStr (s : pystr)
| PList (l : list pyval)
| PDict (d : list (pystr * pyval)).

Definition pydict := list (pystr * pyval).

Fixpoint dict_lookup (k : pystr) (d : pydict) : option pyval :=
  match d with
  | [] => None
  | (k', v) :: d' => if str_eqb k k' then Some v else dict_lookup k d'
  end.

(** The exceptions the function can end with.  [ValueError] is the one
    the function raises itself on an unrecognised input (the
    specification's InvalidInputError); [KeyError] comes from a strict
    lookup (its MalformedInputError); [TypeError] and [AttributeError] come
    from values of an unexpected kind; [EncodeError] stands for an
    exception of any other class.  The tokenizer raises exceptions of its
    own choice, a [ValueError] with a message of its own among them. *)
Inductive exn : Type :=
| ValueError (msg : pystr)
| KeyError (key : pystr)
| TypeError
| AttributeError
| EncodeError.

Inductive result (A : Type) : Type :=
| Ok (a : A)
| Raise (e : exn).

Arguments Ok {A} a.
Arguments Raise {A} e.

Definition bind {A B : Type} (m : result A) (k : A -> result B) : result B :=
  match m with
  | Ok a => k a
  | Raise e => Raise e
  end.

Notation "x <- m ;; k" := (bind m (fun x => k))
  (at level 61, m at next level, right associativity).

(** A [for] loop whose body updates the state and may raise. *)
Fixpoint for_each {X S : Type} (body : X -> S -> result S)
         (xs : list X) (st : S) : result S :=
  match xs with
  | [] => Ok st
  | x :: xs' => st' <- body x st ;; for_each body xs' st'
  end.

(** [isinstance(v, dict)] *)
Definition isinstance_dict (v : pyval) : bool :=
  match v with PDict _ => true | _ => false end.

(** [k in v], for a dictionary [v] *)
Definition dict_contains (k : pystr) (v : pyval) : bool :=
  match v with
  | PDict d => match dict_lookup k d with Some _ => true | None => false end
  | _ => false
  end.

(** [v[k]] with a string [k]: a dictionary looks the key up strictly,
    lists and strings refuse a string index, the rest is not
    subscriptable. *)
Definition py_getitem (v : pyval) (k : pystr) : result pyval :=
  match v with
  | PDict d =>
      match dict_lookup k d with
      | Some x => Ok x
      | None => Raise (KeyError k)
      end
  | _ => Raise TypeError
  end.

(** [v.get(k, default)]: only dictionaries have the method. *)
Definition py_get (v : pyval) (k : pystr) (default : pyval) : result pyval :=
  match v with
  | PDict d =>
      match dict_lookup k d with
      | Some x => Ok x
      | None => Ok default
      end
  | _ => Raise AttributeError
  end.

(** The elements a [for] loop over [v] visits: the items of a list, the
    keys of a dictionary, the one-character substrings of a string. *)
Definition py_iter (v : pyval) : result (list pyval) :=
  match v with
  | PList l => Ok l
  | PDict d => Ok (map (fun kv => PStr (fst kv)) d)
  | PStr s => Ok (map (fun c => PStr [c]) s)
  | _ => Raise TypeError
  end.

(** [v.strip()]: only strings have the method. *)
Definition py_strip (v : pyval) : result pystr :=
  match v with
  | PStr s => Ok (strip s)
  | _ => Raise AttributeError
  end.

(** [v == s] for a string literal [s]: no other kind of value is equal
    to a string. *)
Definition py_eq (v : pyval) (s : pystr) : bool :=
  match v with
  | PStr s' => str_eqb s' s
  | _ => false
  end.

(** Truth value of a string. *)
Definition truthy (s : pystr) : bool :=
  match s with [] => false | _ :: _ => true end.

(* ================================================================= *)
(** ** The output document and the statistics *)

Record safety_setting := {
  category : pystr;
  threshold : pystr
}.

Record run_settings := {
  temperature : spec_float;
  model : pystr;
  topP : spec_float;
  topK : Z;
  maxOutputTokens : Z;
  safetySettings : list safety_setting;
  responseMimeType : pystr;
  enableCodeExecution : bool;
  enableEnhancedCivicAnswers : bool;
  enableSearchAsATool : bool;
  enableBrowseAsATool : bool;
  enableAutoFunctionResponse : bool
}.

(** One entry of ["chunks"].  The keys ["isThought"] and ["finishReason"]
    are optional: [None] is an absent key. *)
Record chunk := {
  text : pystr;
  role : pystr;
  isThought : option bool;
  tokenCount : nat;
  finishReason : option pystr
}.

Record pending_input := {
  pending_text : pystr;
  pending_role : pystr
}.

Record chunked_prompt := {
  chunks : list chunk;
  pendingInputs : list pending_input
}.

Record converted_doc := {
  runSettings : run_settings;
  systemInstruction : pydict;
  chunkedPrompt : chunked_prompt
}.

Record token_statistics := {
  total_tokens : nat;
  user_tokens : nat;
  model_tokens : nat;
  thinking_tokens : nat;
  message_count : nat;
  has_thinking : bool
}.

(** The binary64 values of the literals [1.0] and [0.95]. *)
Definition float_1_0 : spec_float := S754_finite false 4503599627370496 (-52).
Definition float_0_95 : spec_float := S754_finite false 8556839292003942 (-53).

(** The dictionary literal bound to [converted]. *)
Definition converted_init : converted_doc := {|
  runSettings := {|
    temperature := float_1_0;
    model := lit "models/gemini-2.5-pro-preview-03-25";
    topP := float_0_95;
    topK := 64;
    maxOutputTokens := 65536;
    safetySettings := [
      {| category := lit "HARM_CATEGORY_HARASSMENT"; threshold := lit "OFF" |};
      {| category := lit "HARM_CATEGORY_HATE_SPEECH"; threshold := lit "OFF" |};
      {| category := lit "HARM_CATEGORY_SEXUALLY_EXPLICIT";
         threshold := lit "OFF" |};
      {| category := lit "HARM_CATEGORY_DANGEROUS_CONTENT";
         threshold := lit "OFF" |} ];
    responseMimeType := lit "text/plain";
    enableCodeExecution := false;
    enableEnhancedCivicAnswers := true;
    enableSearchAsATool := false;
    enableBrowseAsATool := false;
    enableAutoFunctionResponse := false
  |};
  systemInstruction := [];
  chunkedPrompt := {|
    chunks := [];
    pendingInputs := [ {| pending_text := lit ""; pending_role := lit "user" |} ]
  |}
|}.

(** The dictionary literal bound to [token_stats]. *)
Definition token_stats_init : token_statistics := {|
  total_tokens := 0;
  user_tokens := 0;
  model_tokens := 0;
  thinking_tokens := 0;
  message_count := 0;
  has_thinking := false
|}.

(** The two dictionaries the loops update in place. *)
Record state := {
  converted : converted_doc;
  token_stats : token_statistics
}.

(** [converted["chunkedPrompt"]["chunks"].append(c)] *)
Definition append_chunk (c : chunk) (st : state) : state :=
  {| converted :=
       {| runSettings := runSettings (converted st);
          systemInstruction := systemInstruction (converted st);
          chunkedPrompt :=
            {| chunks := chunks (chunkedPrompt (converted st)) ++ [c];
               pendingInputs := pendingInputs (chunkedPrompt (converted st)) |}
       |};
     token_stats := token_stats st |}.

Definition with_stats (f : token_statistics -> token_statistics)
           (st : state) : state :=
  {| converted := converted st; token_stats := f (token_stats st) |}.

(** [token_stats["has_thinking"] = True] *)
Definition set_has_thinking (ts : token_statistics) : token_statistics :=
  {| total_tokens := total_tokens ts; user_tokens := user_tokens ts;
     model_tokens := model_tokens ts; thinking_tokens := thinking_tokens ts;
     message_count := message_count ts; has_thinking := true |}.

(** [token_stats["total_tokens"] += n] *)
Definition add_total_tokens (n : nat) (ts : token_statistics) :=
  {| total_tokens := total_tokens ts + n; user_tokens := user_tokens ts;
     model_tokens := model_tokens ts; thinking_tokens := thinking_tokens ts;
     message_count := message_count ts; has_thinking := has_thinking ts |}.

(** [token_stats["user_tokens"] += n] *)
Definition add_user_tokens (n : nat) (ts : token_statistics) :=
  {| total_tokens := total_tokens ts; user_tokens := user_tokens ts + n;
     model_tokens := model_tokens ts; thinking_tokens := thinking_tokens ts;
     message_count := message_count ts; has_thinking := has_thinking ts |}.

(** [token_stats["model_tokens"] += n] *)
Definition add_model_tokens (n : nat) (ts : token_statistics) :=
  {| total_tokens := total_tokens ts; user_tokens := user_tokens ts;
     model_tokens := model_tokens ts + n; thinking_tokens := thinking_tokens ts;
     message_count := message_count ts; has_thinking := has_thinking ts |}.

(** [token_stats["thinking_tokens"] += n] *)
Definition add_thinking_tokens (n : nat) (ts : token_statistics) :=
  {| total_tokens := total_tokens ts; user_tokens := user_tokens ts;
     model_tokens := model_tokens ts; thinking_tokens := thinking_tokens ts + n;
     message_count := message_count ts; has_thinking := has_thinking ts |}.

(** [token_stats["message_count"] += 1] *)
Definition incr_message_count (ts : token_statistics) :=
  {| total_tokens := total_tokens ts; user_tokens := user_tokens ts;
     model_tokens := model_tokens ts; thinking_tokens := thinking_tokens ts;
     message_count := message_count ts + 1; has_thinking := has_thinking ts |}.

(** The message of the [ValueError] raised on an unrecognised input. *)
Definition invalid_input_msg : pystr :=
  lit "Invalid input: Expected a JSON object with 'chat_messages' field".

(** The name the download is offered under, from the name of the upload. *)
Definition output_filename (name : pystr) : pystr :=
  let output := str_replace (lit ".json") (lit "_gemini.json") name in
  if negb (endswith (lit "_gemini.json") output)
  then output ++ lit "_gemini.json"
  else output.

(** A small stand-in for the tokenizer, used to run the converter on
    concrete documents: one token per whitespace-separated word.  Like the
    real tokenizer it refuses, with a [ValueError] of its own, a text that
    holds the special token [<|endoftext|>]. *)
Fixpoint words_from (inword : bool) (s : pystr) : list nat :=
  match s with
  | [] => []
  | c :: s' =>
      if isspace c then words_from false s'
      else if inword then words_from true s'
      else 0 :: words_from true s'
  end.

Definition disallowed_token_msg : pystr :=
  lit "Encountered text corresponding to disallowed special token".

Definition word_encode (s : pystr) : result (list nat) :=
  if occurs (lit "<|endoftext|>") s
  then Raise (ValueError disallowed_token_msg)
  else Ok (words_from false s).

(** Documents to run the converter on. *)
Definition obj (items : list (string * pyval)) : pyval :=
  PDict (map (fun kv => (lit (fst kv), snd kv)) items).

Definition str (s : string) : pyval := PStr (lit s).

(** [{"chat_messages": [
       {"sender": "human", "content": [{"type": "text", "text": "Hi"}]},
       {"sender": "assistant", "content": [
          {"type": "thinking", "thinking": "  let me think "},
          {"type": "text", "text": "Hello there"},
          {"type": "image"},
          {"type": "text", "text": "   "},
          {"type": "thinking"}]},
       {"sender": 7}]}] *)
Definition sample_document : pyval :=
  obj [ ("chat_messages",
         PList [
           obj [ ("sender", str "human");
                 ("content", PList [ obj [ ("type", str "text");
                                           ("text", str "Hi") ] ]) ];
           obj [ ("sender", str "assistant");
                 ("content",
                  PList [ obj [ ("type", str "thinking");
                                ("thinking", str "  let me think ") ];
                          obj [ ("type", str "text");
                                ("text", str "Hello there") ];
                          obj [ ("type", str "image") ];
                          obj [ ("type", str "text"); ("text", str "   ") ];
                          obj [ ("type", str "thinking") ] ]) ];
           obj [ ("sender", PInt 7) ] ]) ]%string.

(** [{"sender": "human", "content": [{"type": "text", "text": "Hi"}]}] *)
Definition sample_message : pyval :=
  obj [ ("sender", str "human");
        ("content", PList [ obj [ ("type", str "text");
                                  ("text", str "Hi") ] ]) ]%string.

(** [{"chat_messages": [{"sender": "human", "content": [
       {"type": "text", "text": "stop <|endoftext|> here"}]}]}] *)
Definition refused_document : pyval :=
  obj [ ("chat_messages",
         PList [ obj [ ("sender", str "human");
                       ("content",
                        PList [ obj [ ("type", str "text");
                                      ("text", str "stop <|endoftext|> here")
                                    ] ]) ] ]) ]%string.

(** The state the loops start from. *)
Definition sample_state : state :=
  {| converted := converted_init; token_stats := token_stats_init |}.

(* ================================================================= *)
(** ** The preview of the upload

    Before the conversion is offered, the page reads the uploaded value
    itself: it collects the metadata, warns about a missing
    [chat_messages], looks for thinking segments and counts the
    messages. *)

Definition pystr_eq_dec : forall a b : pystr, {a = b} + {a <> b} :=
  list_eq_dec N.eq_dec.

(** [len(v)]; the length of a dictionary is the number of its keys. *)
Definition py_len (v : pyval) : result nat :=
  match v with
  | PList l => Ok (length l)
  | PStr s => Ok (length s)
  | PDict d => Ok (length (nodup pystr_eq_dec (map fst d)))
  | _ => Raise TypeError
  end.

(** [k in v] for a string [k]: a key of a dictionary, an element of a
    list, a substring of a string. *)
Definition py_in (k : pystr) (v : pyval) : result bool :=
  match v with
  | PDict d =>
      Ok (match dict_lookup k d with Some _ => true | None => false end)
  | PList l => Ok (existsb (fun x => py_eq x k) l)
  | PStr s => Ok (occurs k s)
  | _ => Raise TypeError
  end.

(** [d[k] = v]: the value of an existing key is replaced in place, a new
    key goes to the end. *)
Fixpoint dict_set (k : pystr) (v : pyval) (d : pydict) : pydict :=
  match d with
  | [] => [(k, v)]
  | (k', v') :: d' =>
      if str_eqb k k' then (k', v) :: d' else (k', v') :: dict_set k v d'
  end.

Definition metadata_keys : list pystr :=
  [lit "uuid"; lit "name"; lit "model"; lit "created_at"].

(** The body of the metadata loop. *)
Definition metadata_step (source_data : pyval) (key : pystr)
           (metadata : pydict) : result pydict :=
  present <- py_in key source_data ;;
  if present then
    value <- py_getitem source_data key ;;
    Ok (dict_set key value metadata)
  else Ok metadata.

(** The metadata loop. *)
Definition extract_metadata (source_data : pyval) : result pydict :=
  for_each (metadata_step source_data) metadata_keys [].

(** The inner loop of the search for thinking segments; it stops at the
    first segment whose [type], read with [None] as default, is
    ["thinking"]. *)
Fixpoint scan_segments (segments : list pyval) : result bool :=
  match segments with
  | [] => Ok false
  | segment :: rest =>
      ty <- py_get segment (lit "type") PNone ;;
      if py_eq ty (lit "thinking") then Ok true else scan_segments rest
  end.

(** The outer loop; it stops after the first message in which the inner
    loop found one. *)
Fixpoint scan_messages (messages : list pyval) : result bool :=
  match messages with
  | [] => Ok false
  | msg :: rest =>
      content <- py_get msg (lit "content") (PList []) ;;
      segments <- py_iter content ;;
      has_thinking <- scan_segments segments ;;
      if has_thinking then Ok true else scan_messages rest
  end.

(** The flag shown as "Has thinking segments". *)
Definition scan_has_thinking (source_data : pyval) : result bool :=
  chat_messages <- py_get source_data (lit "chat_messages") (PList []) ;;
  messages <- py_iter chat_messages ;;
  scan_messages messages.

(** The number shown as "Number of messages". *)
Definition count_messages (source_data : pyval) : result nat :=
  chat_messages <- py_get source_data (lit "chat_messages") (PList []) ;;
  py_len chat_messages.

Record preview_info := {
  preview_metadata : pydict;
  preview_warning : bool;
  preview_thinking : bool;
  preview_count : nat
}.

(** The preview, from the metadata to the number of messages. *)
Definition preview (source_data : pyval) : result preview_info :=
  metadata <- extract_metadata source_data ;;
  present <- py_in (lit "chat_messages") source_data ;;
  has_thinking <- scan_has_thinking source_data ;;
  message_count <- count_messages source_data ;;
  Ok {| preview_metadata := metadata;
        preview_warning := negb present;
        preview_thinking := has_thinking;
        preview_count := message_count |}.

(** Chunks by their marks. *)
Definition chunk_is_thought (c : chunk) : bool :=
  match isThought c with Some true => true | _ => false end.

Definition chunk_is_user_text (c : chunk) : bool :=
  negb (chunk_is_thought c) && str_eqb (role c) (lit "user").

Definition chunk_has_finish_reason (c : chunk) : bool :=
  match finishReason c with Some _ => true | None => false end.

(** The sum of the token counts of the selected chunks. *)
Definition chunk_tokens (sel : chunk -> bool) (cs : list chunk) : nat :=
  list_sum (map tokenCount (filter sel cs)).

(** What the conversion keeps of an answer of the tokenizer: the number
    of tokens, or the exception. *)
Definition encoded_length (answer : result (list nat)) : result nat :=
  tokens <- answer ;; Ok (length tokens).

(** A text as the tokenizer receives it: not empty, and without
    whitespace at either end. *)
Definition trimmed_text (t : pystr) : Prop :=
  t <> [] /\ lstrip t = t /\ rstrip t = t.

(* ================================================================= *)
(** ** The converter *)

Section Converter.

(** The tokenizer [enc.encode] of the external library: it yields the
    token list of a text, or raises an exception of its own. *)
Variable enc_encode : pystr -> result (list nat).

(** [count_tokens] *)
Definition count_tokens (text : pystr) : result nat :=
  if negb (truthy text) then Ok 0
  else tokens <- enc_encode text ;; Ok (length tokens).

(** The body of the inner loop, for one [segment] under the [role] of its
    message. *)
Definition process_segment (role : pystr) (segment : pyval) (st : state)
  : result state :=
  ty <- py_getitem segment (lit "type") ;;
  if py_eq ty (lit "thinking") then
    raw <- py_get segment (lit "thinking") (PStr (lit "")) ;;
    text <- py_strip raw ;;
    if truthy text then
      let st := with_stats set_has_thinking st in
      token_count <- count_tokens text ;;
      let st := with_stats (add_total_tokens token_count) st in
      let st := with_stats (add_thinking_tokens token_count) st in
      Ok (append_chunk {| text := text; role := role; isThought := Some true;
                          tokenCount := token_count; finishReason := None |} st)
    else Ok st
  else
    ty <- py_getitem segment (lit "type") ;;
    if py_eq ty (lit "text") then
      raw <- py_get segment (lit "text") (PStr (lit "")) ;;
      text <- py_strip raw ;;
      if truthy text then
        token_count <- count_tokens text ;;
        let st := with_stats (add_total_tokens token_count) st in
        let st := if str_eqb role (lit "user")
                  then with_stats (add_user_tokens token_count) st
                  else with_stats (add_model_tokens token_count) st in
        let c := {| text := text; role := role; isThought := None;
                    tokenCount := token_count;
                    finishReason := if str_eqb role (lit "model")
                                    then Some (lit "STOP") else None |} in
        Ok (append_chunk c st)
      else Ok st
    else Ok st.

(** The body of the outer loop, for one [msg]. *)
Definition process_message (msg : pyval) (st : state) : result state :=
  sender <- py_getitem msg (lit "sender") ;;
  let role := if py_eq sender (lit "human") then lit "user" else lit "model" in
  let st := with_stats incr_message_count st in
  content <- py_get msg (lit "content") (PList []) ;;
  segments <- py_iter content ;;
  for_each (process_segment role) segments st.

(** The check of the first two lines of the function. *)
Definition validate (source_data : pyval) : result unit :=
  if negb (isinstance_dict source_data)
     || negb (dict_contains (lit "chat_messages") source_data)
  then Raise (ValueError invalid_input_msg)
  else Ok tt.

(** The two loops, from the initial dictionaries. *)
Definition traverse (source_data : pyval) : result state :=
  chat_messages <- py_get source_data (lit "chat_messages") (PList []) ;;
  messages <- py_iter chat_messages ;;
  for_each process_message messages
           {| converted := converted_init; token_stats := token_stats_init |}.

(** [convert_claude_to_gemini] *)
Definition convert_claude_to_gemini (source_data : pyval)
  : result (converted_doc * token_statistics) :=
  _ <- validate source_data ;;
  st <- traverse source_data ;;
  Ok (converted st, token_stats st).


(* ----------------------------------------------------------------- *)
(** *** The document as the specification reads it

    The specification speaks of the messages of a document, of the
    resolved role of a message, of its segments, of the variant of a
    segment and of its trimmed text.  These are the same notions as total
    functions of the input value, stated apart from the loops; a lookup
    that the code would not survive reads as the empty default, which no
    successful run ever meets. *)

Definition elements (v : pyval) : list pyval :=
  match py_iter v with Ok l => l | Raise _ => [] end.

Definition field_or (v : pyval) (k : pystr) (default : pyval) : pyval :=
  match py_get v k default with Ok x => x | Raise _ => default end.

(** The messages of a document, in input order. *)
Definition doc_messages (src : pyval) : list pyval :=
  elements (field_or src (lit "chat_messages") (PList [])).

(** The segments of a message, in input order. *)
Definition msg_segments (msg : pyval) : list pyval :=
  elements (field_or msg (lit "content") (PList [])).

(** ["human"] maps to ["user"], anything else to ["model"]. *)
Definition role_of_sender (sender : pyval) : pystr :=
  if py_eq sender (lit "human") then lit "user" else lit "model".

Definition resolved_role (msg : pyval) : pystr :=
  match py_getitem msg (lit "sender") with
  | Ok sender => role_of_sender sender
  | Raise _ => lit "model"
  end.

Inductive variant : Type := Thinking | Text | Other.

(** The variant a segment's [type] field selects. *)
Definition seg_variant (seg : pyval) : variant :=
  match py_getitem seg (lit "type") with
  | Ok ty =>
      if py_eq ty (lit "thinking") then Thinking
      else if py_eq ty (lit "text") then Text
      else Other
  | Raise _ => Other
  end.

(** The trimmed string under [field], empty when the field is absent. *)
Definition trimmed_field (seg : pyval) (field : pystr) : pystr :=
  match py_get seg field (PStr (lit "")) with
  | Ok raw => match py_strip raw with Ok t => t | Raise _ => [] end
  | Raise _ => []
  end.

(** The trimmed text of a [text] or [thinking] segment. *)
Definition seg_text (seg : pyval) : pystr :=
  match seg_variant seg with
  | Thinking => trimmed_field seg (lit "thinking")
  | Text => trimmed_field seg (lit "text")
  | Other => []
  end.

(** The token count of a text: none for the empty text, and otherwise
    the number of tokens the tokenizer returns for it. *)
Definition tokens_of (t : pystr) : nat :=
  match t with
  | [] => 0
  | _ :: _ =>
      match enc_encode t with Ok tokens => length tokens | Raise _ => 0 end
  end.

(** A segment together with the resolved role of its message. *)
Definition occurrence : Type := pystr * pyval.

Definition msg_occurrences (msg : pyval) : list occurrence :=
  map (fun seg => (resolved_role msg, seg)) (msg_segments msg).

(** Every segment of the document in encounter order: messages in input
    order, the segments of each message in input order. *)
Definition encounter (src : pyval) : list occurrence :=
  flat_map msg_occurrences (doc_messages src).

Definition is_thinking (o : occurrence) : bool :=
  match seg_variant (snd o) with Thinking => true | _ => false end.

Definition is_text (o : occurrence) : bool :=
  match seg_variant (snd o) with Text => true | _ => false end.

(** A [text] or [thinking] segment whose trimmed text is not empty. *)
Definition counted (o : occurrence) : bool := truthy (seg_text (snd o)).

Definition has_role (r : pystr) (o : occurrence) : bool := str_eqb (fst o) r.

(** The sum of the token counts of the selected occurrences. *)
Definition sum_tokens (sel : occurrence -> bool) (l : list occurrence) : nat :=
  list_sum (map (fun o => tokens_of (seg_text (snd o))) (filter sel l)).

(** The chunk a counted occurrence is turned into. *)
Definition chunk_of (o : occurrence) : chunk :=
  {| text := seg_text (snd o);
     role := fst o;
     isThought := if is_thinking o then Some true else None;
     tokenCount := tokens_of (seg_text (snd o));
     finishReason :=
       if is_thinking o then None
       else if str_eqb (fst o) (lit "model") then Some (lit "STOP")
       else None |}.

(** What one counted occurrence adds to the statistics. *)
Definition stats_after (o : occurrence) (ts : token_statistics)
  : token_statistics :=
  let n := tokens_of (seg_text (snd o)) in
  if is_thinking o
  then add_thinking_tokens n (add_total_tokens n (set_has_thinking ts))
  else if str_eqb (fst o) (lit "user")
       then add_user_tokens n (add_total_tokens n ts)
       else add_model_tokens n (add_total_tokens n ts).

(** The state after one occurrence. *)
Definition after_occurrence (st : state) (o : occurrence) : state :=
  if counted o
  then append_chunk (chunk_of o) (with_stats (stats_after o) st)
  else st.

(** The state after one message. *)
Definition after_message (st : state) (msg : pyval) : state :=
  fold_left after_occurrence (msg_occurrences msg)
            (with_stats incr_message_count st).

(** An occurrence of a non-empty [thinking] segment. *)
Definition sel_thinking (o : occurrence) : bool := is_thinking o && counted o.

(** An occurrence of a non-empty [text] segment in a ["user"] message. *)
Definition sel_user (o : occurrence) : bool :=
  is_text o && counted o && has_role (lit "user") o.

(** An occurrence of a non-empty [text] segment in any other message. *)
Definition sel_model (o : occurrence) : bool :=
  is_text o && counted o && negb (has_role (lit "user") o).

(** The state [n] messages later, when these messages held the
    occurrences [l]. *)
Definition summary (st : state) (n : nat) (l : list occurrence) : state :=
  {| converted :=
       {| runSettings := runSettings (converted st);
          systemInstruction := systemInstruction (converted st);
          chunkedPrompt :=
            {| chunks := chunks (chunkedPrompt (converted st))
                         ++ map chunk_of (filter counted l);
               pendingInputs := pendingInputs (chunkedPrompt (converted st)) |}
       |};
     token_stats :=
       {| total_tokens := total_tokens (token_stats st) + sum_tokens counted l;
          user_tokens := user_tokens (token_stats st) + sum_tokens sel_user l;
          model_tokens := model_tokens (token_stats st) + sum_tokens sel_model l;
          thinking_tokens :=
            thinking_tokens (token_stats st) + sum_tokens sel_thinking l;
          message_count := message_count (token_stats st) + n;
          has_thinking :=
            has_thinking (token_stats st) || existsb sel_thinking l |} |}.

(** The lookups of one segment all went through: its [type] is there,
    the string it carries could be trimmed and the tokenizer accepted
    the trimmed text. *)
Definition payload_read (seg : pyval) (field : pystr) : Prop :=
  exists raw, py_get seg field (PStr (lit "")) = Ok (PStr raw)
              /\ seg_text seg = strip raw.

Definition segment_read (seg : pyval) : Prop :=
  (exists ty, py_getitem seg (lit "type") = Ok ty)
  /\ match seg_variant seg with
     | Thinking => payload_read seg (lit "thinking")
     | Text => payload_read seg (lit "text")
     | Other => True
     end
  /\ count_tokens (seg_text seg) = Ok (tokens_of (seg_text seg)).

(** The lookups of one message all went through. *)
Definition message_read (msg : pyval) : Prop :=
  (exists sender, py_getitem msg (lit "sender") = Ok sender
                  /\ resolved_role msg = role_of_sender sender)
  /\ (exists content, py_get msg (lit "content") (PList []) = Ok content
                      /\ py_iter content = Ok (msg_segments msg))
  /\ Forall segment_read (msg_segments msg).

(** The invariant of the statistics. *)
Definition balanced (ts : token_statistics) : Prop :=
  total_tokens ts = user_tokens ts + model_tokens ts + thinking_tokens ts.

(** The fixed part of the output document. *)
Definition envelope_of (doc : converted_doc)
  : run_settings * pydict * list pending_input :=
  (runSettings doc, systemInstruction doc, pendingInputs (chunkedPrompt doc)).

(** The input contract: a dictionary whose [chat_messages] is a list of
    message dictionaries; a message has a [sender] and, when it has a
    [content], a list of segment dictionaries; a segment has a [type], and
    the payload of a [text] or [thinking] segment, when present, is a
    string. *)
Definition str_or_absent (o : option pyval) : bool :=
  match o with
  | None | Some (PStr _) => true
  | Some _ => false
  end.

Definition valid_segment (seg : pyval) : bool :=
  match seg with
  | PDict d =>
      match dict_lookup (lit "type") d with
      | Some ty =>
          if py_eq ty (lit "thinking")
          then str_or_absent (dict_lookup (lit "thinking") d)
          else if py_eq ty (lit "text")
               then str_or_absent (dict_lookup (lit "text") d)
               else true
      | None => false
      end
  | _ => false
  end.

Definition valid_message (msg : pyval) : bool :=
  match msg with
  | PDict d =>
      match dict_lookup (lit "sender") d, dict_lookup (lit "content") d with
      | Some _, None => true
      | Some _, Some (PList segs) => forallb valid_segment segs
      | _, _ => false
      end
  | _ => false
  end.

Definition valid_document (src : pyval) : bool :=
  match src with
  | PDict d =>
      match dict_lookup (lit "chat_messages") d with
      | Some (PList msgs) => forallb valid_message msgs
      | _ => false
      end
  | _ => false
  end.

(** The tokenizer accepts the trimmed text of every counted segment. *)
Definition accepted (t : pystr) : bool :=
  match enc_encode t with Ok _ => true | Raise _ => false end.

Definition tokenizable (src : pyval) : bool :=
  forallb (fun o => accepted (seg_text (snd o)))
          (filter counted (encounter src)).

(** What the traversal needs of a message: a dictionary with a [sender]
    whose [content], when present, can be iterated and holds valid
    segments only. *)
Definition readable_message (msg : pyval) : bool :=
  match py_getitem msg (lit "sender"),
        py_get msg (lit "content") (PList []) with
  | Ok _, Ok content =>
      match py_iter content with
      | Ok segments => forallb valid_segment segments
      | Raise _ => false
      end
  | _, _ => false
  end.

(** What the conversion needs of its input. *)
Definition readable_document (src : pyval) : bool :=
  isinstance_dict src && dict_contains (lit "chat_messages") src
  && match py_iter (field_or src (lit "chat_messages") (PList [])) with
     | Ok messages => forallb readable_message messages
     | Raise _ => false
     end.

(** The exceptions of the traversal: a [KeyError] for one of the two
    strict lookups, a [TypeError] or an [AttributeError] for a value of an
    unexpected kind, or the exception the tokenizer raised on a text it
    was given. *)
Definition traversal_error (e : exn) : Prop :=
  e = KeyError (lit "sender") \/ e = KeyError (lit "type")
  \/ e = TypeError \/ e = AttributeError
  \/ exists t, trimmed_text t /\ enc_encode t = Raise e.

(* ================================================================= *)
(** ** Strings *)

Arguments lit : simpl never.

Lemma str_eqb_eq (a b : pystr) : str_eqb a b = true <-> a = b.
Proof.
  revert b; induction a as [|x a IH]; intros [|y b]; simpl;
    try (split; [discriminate | discriminate]); try tauto.
  rewrite andb_true_iff, N.eqb_eq, IH.
  split; [intros [-> ->]; reflexivity | intros H; inversion H; auto].
Qed.

Lemma str_eqb_refl (a : pystr) : str_eqb a a = true.
Proof. apply str_eqb_eq; reflexivity. Qed.

Lemma truthy_false (s : pystr) : truthy s = false <-> s = [].
Proof. destruct s; simpl; split; congruence. Qed.

Lemma forallb_rev {A} (f : A -> bool) (l : list A) :
  forallb f (rev l) = forallb f l.
Proof.
  induction l as [|x l IH]; simpl; [reflexivity|].
  rewrite forallb_app, IH; simpl. rewrite andb_true_r, andb_comm; reflexivity.
Qed.

(** [lstrip] drops a prefix made of whitespace. *)
Lemma lstrip_split (s : pystr) :
  exists pre, s = pre ++ lstrip s /\ forallb isspace pre = true.
Proof.
  induction s as [|c s (pre & E & Hpre)]; simpl.
  - exists []; auto.
  - destruct (isspace c) eqn:Hc.
    + exists (c :: pre); simpl. rewrite Hc, Hpre. split; [congruence | reflexivity].
    + exists []; auto.
Qed.

(** What [lstrip] returns does not start with whitespace. *)
Lemma lstrip_head (s : pystr) :
  match lstrip s with [] => True | c :: _ => isspace c = false end.
Proof.
  induction s as [|c s IH]; simpl; [exact I|].
  destruct (isspace c) eqn:Hc; [exact IH | exact Hc].
Qed.

Lemma lstrip_fixed (s : pystr) :
  match s with [] => True | c :: _ => isspace c = false end -> lstrip s = s.
Proof. destruct s as [|c s]; simpl; [reflexivity | intros ->; reflexivity]. Qed.

Lemma lstrip_idem (s : pystr) : lstrip (lstrip s) = lstrip s.
Proof. apply lstrip_fixed, lstrip_head. Qed.

Lemma lstrip_spaces (s : pystr) : forallb isspace s = true -> lstrip s = [].
Proof.
  induction s as [|c s IH]; simpl; [reflexivity|].
  rewrite andb_true_iff; intros [-> H]; auto.
Qed.

Lemma lstrip_nil_spaces (s : pystr) : lstrip s = [] -> forallb isspace s = true.
Proof.
  induction s as [|c s IH]; simpl; [reflexivity|].
  destruct (isspace c); [exact IH | discriminate].
Qed.

Lemma rstrip_split (s : pystr) :
  exists post, s = rstrip s ++ post /\ forallb isspace post = true.
Proof.
  destruct (lstrip_split (rev s)) as (pre & E & Hpre).
  exists (rev pre); split; [|rewrite forallb_rev; exact Hpre].
  unfold rstrip. rewrite <- rev_app_distr, <- E, rev_involutive; reflexivity.
Qed.

Lemma rstrip_idem (s : pystr) : rstrip (rstrip s) = rstrip s.
Proof. unfold rstrip. rewrite rev_involutive, lstrip_idem; reflexivity. Qed.

(** [strip] removes whitespace on both sides and nothing else. *)
Lemma strip_split (s : pystr) :
  exists pre post,
    s = pre ++ strip s ++ post
    /\ forallb isspace pre = true /\ forallb isspace post = true.
Proof.
  destruct (lstrip_split s) as (pre & E1 & Hpre).
  destruct (rstrip_split (lstrip s)) as (post & E2 & Hpost).
  exists pre, post; unfold strip; repeat split; auto.
  rewrite <- E2; exact E1.
Qed.

(** A stripped string neither starts nor ends with whitespace. *)
Lemma strip_lstrip (s : pystr) : lstrip (strip s) = strip s.
Proof.
  apply lstrip_fixed. unfold strip.
  pose proof (lstrip_head s) as Hh.
  destruct (rstrip_split (lstrip s)) as (post & E & _).
  destruct (rstrip (lstrip s)) as [|c r]; [exact I|].
  rewrite E in Hh; exact Hh.
Qed.

Lemma strip_rstrip (s : pystr) : rstrip (strip s) = strip s.
Proof. unfold strip; apply rstrip_idem. Qed.


Lemma strip_spaces (s : pystr) : forallb isspace s = true -> strip s = [].
Proof. intros H; unfold strip; rewrite (lstrip_spaces s H); reflexivity. Qed.

Lemma strip_nil_spaces (s : pystr) : strip s = [] -> forallb isspace s = true.
Proof.
  intros H. destruct (strip_split s) as (pre & post & E & Hpre & Hpost).
  rewrite H in E; simpl in E. rewrite E, forallb_app, Hpre, Hpost; reflexivity.
Qed.

(* ================================================================= *)
(** ** The error monad and the loops *)

Lemma bind_ok {A B} (m : result A) (k : A -> result B) (b : B) :
  bind m k = Ok b -> exists a, m = Ok a /\ k a = Ok b.
Proof. destruct m as [a|e]; simpl; [eauto | discriminate]. Qed.

Lemma for_each_app {X S} (body : X -> S -> result S) (xs ys : list X) (st : S) :
  for_each body (xs ++ ys) st
  = bind (for_each body xs st) (for_each body ys).
Proof.
  revert st; induction xs as [|x xs IH]; intros st; simpl; [reflexivity|].
  destruct (body x st); simpl; auto.
Qed.

(** A loop whose successful steps agree with a pure step is a fold. *)
Lemma for_each_fold {X S} (body : X -> S -> result S) (step : S -> X -> S) :
  (forall x st st', body x st = Ok st' -> st' = step st x) ->
  forall xs st st', for_each body xs st = Ok st' -> st' = fold_left step xs st.
Proof.
  intros Hstep xs; induction xs as [|x xs IH]; intros st st'; simpl.
  - congruence.
  - intros H. apply bind_ok in H as (st1 & H1 & H2).
    apply Hstep in H1; subst st1. auto.
Qed.

(** A property that every successful step keeps holds after the loop. *)
Lemma for_each_preserves {X S} (body : X -> S -> result S) (P : S -> Prop) :
  (forall x st st', P st -> body x st = Ok st' -> P st') ->
  forall xs st st', P st -> for_each body xs st = Ok st' -> P st'.
Proof.
  intros Hstep xs; induction xs as [|x xs IH]; intros st st' HP; simpl.
  - intros [= <-]; exact HP.
  - intros H. apply bind_ok in H as (st1 & H1 & H2). eauto.
Qed.

(** Takes a successful [bind] apart. *)
Ltac bind_inv H :=
  let a := fresh "a" in
  let Ha := fresh "Ha" in
  apply bind_ok in H as (a & Ha & H).

(* ================================================================= *)
(** ** Counting tokens *)

Lemma count_tokens_ok (t : pystr) (n : nat) :
  count_tokens t = Ok n -> n = tokens_of t.
Proof.
  unfold count_tokens, tokens_of. destruct t as [|c t]; simpl; [congruence|].
  destruct (enc_encode (c :: t)); simpl; congruence.
Qed.


(** [count_tokens] raises what the tokenizer raised, and only on a text
    that is not empty. *)
Lemma count_tokens_raised (t : pystr) (e : exn) :
  count_tokens t = Raise e -> t <> [] /\ enc_encode t = Raise e.
Proof.
  unfold count_tokens. destruct t as [|c t]; simpl; [discriminate|].
  destruct (enc_encode (c :: t)); simpl; [discriminate|].
  intros [= <-]. split; [discriminate | reflexivity].
Qed.

(* ================================================================= *)
(** ** The loops as folds over the occurrences *)

Lemma process_segment_step (r : pystr) (seg : pyval) (st st' : state) :
  process_segment r seg st = Ok st' -> st' = after_occurrence st (r, seg).
Proof.
  unfold process_segment, after_occurrence, counted, chunk_of, stats_after,
    is_thinking, seg_text, seg_variant, trimmed_field; simpl.
  destruct (py_getitem seg (lit "type")) as [ty|e]; simpl; [|discriminate].
  destruct (py_eq ty (lit "thinking")) eqn:Eth.
  - destruct (py_get seg (lit "thinking") (PStr (lit ""))) as [raw|e];
      simpl; [|discriminate].
    destruct (py_strip raw) as [t|e]; simpl; [|discriminate].
    destruct (truthy t) eqn:Et; [|intros [= <-]; reflexivity].
    destruct (count_tokens t) as [n|e] eqn:En; simpl; [|discriminate].
    apply count_tokens_ok in En; subst n.
    intros [= <-]; reflexivity.
  - destruct (py_eq ty (lit "text")) eqn:Etx; [|intros [= <-]; reflexivity].
    destruct (py_get seg (lit "text") (PStr (lit ""))) as [raw|e];
      simpl; [|discriminate].
    destruct (py_strip raw) as [t|e]; simpl; [|discriminate].
    destruct (truthy t) eqn:Et; [|intros [= <-]; reflexivity].
    destruct (count_tokens t) as [n|e] eqn:En; simpl; [|discriminate].
    apply count_tokens_ok in En; subst n.
    intros [= <-]. destruct (str_eqb r (lit "user")); reflexivity.
Qed.

Lemma process_message_step (msg : pyval) (st st' : state) :
  process_message msg st = Ok st' -> st' = after_message st msg.
Proof.
  unfold process_message, after_message, msg_occurrences, msg_segments,
    elements, field_or, resolved_role, role_of_sender.
  intros H. bind_inv H. rewrite Ha. bind_inv H. rewrite Ha0.
  bind_inv H. rewrite Ha1.
  cbv zeta in H. fold (role_of_sender a) in H |- *.
  apply for_each_fold
    with (step := fun s seg => after_occurrence s (role_of_sender a, seg))
    in H; [|intros; apply process_segment_step; assumption].
  rewrite H. clear. generalize (with_stats incr_message_count st).
  induction a1 as [|seg l IH]; intros s; simpl; auto.
Qed.

Lemma traverse_fold (src : pyval) (st : state) :
  traverse src = Ok st ->
  st = fold_left after_message (doc_messages src)
         {| converted := converted_init; token_stats := token_stats_init |}.
Proof.
  unfold traverse, doc_messages, elements, field_or.
  intros H. bind_inv H. rewrite Ha. bind_inv H. rewrite Ha0.
  eapply for_each_fold in H; [exact H|].
  intros; apply process_message_step; assumption.
Qed.

Lemma sum_tokens_cons (sel : occurrence -> bool) (o : occurrence) l :
  sum_tokens sel (o :: l)
  = (if sel o then tokens_of (seg_text (snd o)) else 0) + sum_tokens sel l.
Proof. unfold sum_tokens; simpl. destruct (sel o); reflexivity. Qed.

Lemma sum_tokens_app (sel : occurrence -> bool) l l' :
  sum_tokens sel (l ++ l') = sum_tokens sel l + sum_tokens sel l'.
Proof.
  unfold sum_tokens. rewrite filter_app, map_app, list_sum_app; reflexivity.
Qed.

(** A counted occurrence is a [thinking] or a [text] segment, not both. *)
Lemma counted_variant (o : occurrence) :
  counted o = true -> is_text o = negb (is_thinking o).
Proof.
  unfold counted, is_text, is_thinking, seg_text.
  destruct (seg_variant (snd o)); simpl; congruence.
Qed.

Lemma summary_nil (st : state) : summary st 0 [] = st.
Proof.
  destruct st as [[rs si [cs ps]] [a b c d e f]]; unfold summary, sum_tokens;
    simpl.
  rewrite app_nil_r, !Nat.add_0_r, orb_false_r; reflexivity.
Qed.

Lemma summary_compose (st : state) (n m : nat) (l l' : list occurrence) :
  summary (summary st n l) m l' = summary st (n + m) (l ++ l').
Proof.
  unfold summary; simpl.
  rewrite !sum_tokens_app, filter_app, map_app, existsb_app, app_assoc,
    orb_assoc, !Nat.add_assoc; reflexivity.
Qed.

Lemma after_occurrence_summary (st : state) (o : occurrence) :
  after_occurrence st o = summary st 0 [o].
Proof.
  unfold after_occurrence. destruct (counted o) eqn:Hc.
  - pose proof (counted_variant o Hc) as Hv.
    unfold summary, append_chunk, with_stats, stats_after, sel_thinking,
      sel_user, sel_model, has_role; simpl.
    rewrite !sum_tokens_cons, Hc, Hv; unfold sum_tokens; simpl.
    destruct (is_thinking o); simpl;
      [|destruct (str_eqb (fst o) (lit "user")); simpl];
      rewrite ?Nat.add_0_r, ?orb_false_r, ?orb_true_r; reflexivity.
  - rewrite <- (summary_nil st) at 1.
    unfold summary, sel_thinking, sel_user, sel_model; simpl.
    rewrite !sum_tokens_cons, Hc, !andb_false_r; reflexivity.
Qed.

Lemma fold_occurrences (l : list occurrence) (st : state) :
  fold_left after_occurrence l st = summary st 0 l.
Proof.
  revert st; induction l as [|o l IH]; intros st; simpl.
  - symmetry; apply summary_nil.
  - rewrite IH, after_occurrence_summary, summary_compose; reflexivity.
Qed.

Lemma after_message_summary (st : state) (msg : pyval) :
  after_message st msg = summary st 1 (msg_occurrences msg).
Proof.
  unfold after_message. rewrite fold_occurrences.
  unfold summary; simpl. rewrite Nat.add_0_r; reflexivity.
Qed.

Lemma fold_messages (msgs : list pyval) (st : state) :
  fold_left after_message msgs st
  = summary st (length msgs) (flat_map msg_occurrences msgs).
Proof.
  revert st; induction msgs as [|m msgs IH]; intros st; simpl.
  - symmetry; apply summary_nil.
  - rewrite IH, after_message_summary, summary_compose; reflexivity.
Qed.

(** The state a successful traversal ends in, in closed form. *)
Lemma traverse_summary (src : pyval) (st : state) :
  traverse src = Ok st ->
  st = summary {| converted := converted_init; token_stats := token_stats_init |}
         (length (doc_messages src)) (encounter src).
Proof.
  intros H. apply traverse_fold in H. rewrite fold_messages in H. exact H.
Qed.

Lemma convert_ok (src : pyval) (doc : converted_doc) (stats : token_statistics) :
  convert_claude_to_gemini src = Ok (doc, stats) ->
  validate src = Ok tt
  /\ exists st, traverse src = Ok st /\ doc = converted st
                /\ stats = token_stats st.
Proof.
  unfold convert_claude_to_gemini. intros H. bind_inv H. destruct a.
  split; [assumption|]. bind_inv H. injection H as <- <-. eauto.
Qed.

Lemma for_each_each {X S} (body : X -> S -> result S) xs st st' :
  for_each body xs st = Ok st' ->
  Forall (fun x => exists s s', body x s = Ok s') xs.
Proof.
  revert st; induction xs as [|x xs IH]; intros st; simpl; [constructor|].
  intros H. bind_inv H. constructor; eauto.
Qed.

Lemma for_each_raise {X S} (body : X -> S -> result S) (P : exn -> Prop) :
  (forall x st e, body x st = Raise e -> P e) ->
  forall xs st e, for_each body xs st = Raise e -> P e.
Proof.
  intros Hbody xs; induction xs as [|x xs IH]; intros st e; simpl;
    [discriminate|].
  destruct (body x st) as [st1|e1] eqn:Hb; simpl.
  - apply IH.
  - intros [= <-]. eapply Hbody; eassumption.
Qed.

(** The first element on which the body raises ends the loop with that
    exception. *)
Lemma for_each_fail_fast {X S} (body : X -> S -> result S) pre x post st st1 e :
  for_each body pre st = Ok st1 -> body x st1 = Raise e ->
  for_each body (pre ++ x :: post) st = Raise e.
Proof.
  intros Hpre Hx. rewrite for_each_app, Hpre; simpl. rewrite Hx; reflexivity.
Qed.

(* ================================================================= *)
(** ** What a successful run has read *)

Lemma process_segment_read (r : pystr) (seg : pyval) (st st' : state) :
  process_segment r seg st = Ok st' -> segment_read seg.
Proof.
  unfold process_segment, segment_read, payload_read, seg_text, seg_variant,
    trimmed_field.
  destruct (py_getitem seg (lit "type")) as [ty|e]; simpl; [|discriminate].
  destruct (py_eq ty (lit "thinking")) eqn:Eth.
  - destruct (py_get seg (lit "thinking") (PStr (lit ""))) as [raw|e];
      simpl; [|discriminate].
    destruct raw as [| | | |s| |]; simpl; try discriminate.
    destruct (truthy (strip s)) eqn:Et.
    + destruct (count_tokens (strip s)) as [n|e] eqn:En; simpl;
        [|discriminate].
      rewrite <- (count_tokens_ok _ En). intros _; repeat split; eauto.
    + apply truthy_false in Et; rewrite Et. intros _; repeat split; eauto.
  - destruct (py_eq ty (lit "text")) eqn:Etx;
      [|intros _; repeat split; eauto].
    destruct (py_get seg (lit "text") (PStr (lit ""))) as [raw|e];
      simpl; [|discriminate].
    destruct raw as [| | | |s| |]; simpl; try discriminate.
    destruct (truthy (strip s)) eqn:Et.
    + destruct (count_tokens (strip s)) as [n|e] eqn:En; simpl;
        [|discriminate].
      rewrite <- (count_tokens_ok _ En). intros _; repeat split; eauto.
    + apply truthy_false in Et; rewrite Et. intros _; repeat split; eauto.
Qed.

Lemma process_message_read (msg : pyval) (st st' : state) :
  process_message msg st = Ok st' -> message_read msg.
Proof.
  unfold process_message, message_read, msg_segments, elements, field_or,
    resolved_role.
  intros H. bind_inv H. rewrite Ha. bind_inv H. rewrite Ha0.
  bind_inv H. rewrite Ha1. repeat split; eauto.
  apply for_each_each in H. eapply Forall_impl; [|exact H].
  intros seg (s & s' & Hs); eapply process_segment_read; eassumption.
Qed.

Lemma traverse_read (src : pyval) (st : state) :
  traverse src = Ok st -> Forall message_read (doc_messages src).
Proof.
  unfold traverse, doc_messages, elements, field_or.
  intros H. bind_inv H. rewrite Ha. bind_inv H. rewrite Ha0.
  apply for_each_each in H. eapply Forall_impl; [|exact H].
  intros msg (s & s' & Hs); eapply process_message_read; eassumption.
Qed.

(** The role of an occurrence is ["user"] or ["model"]. *)
Lemma role_of_sender_cases (sender : pyval) :
  role_of_sender sender = lit "user" \/ role_of_sender sender = lit "model".
Proof. unfold role_of_sender; destruct (py_eq sender _); auto. Qed.

Lemma resolved_role_cases (msg : pyval) :
  resolved_role msg = lit "user" \/ resolved_role msg = lit "model".
Proof.
  unfold resolved_role. destruct (py_getitem msg _);
    [apply role_of_sender_cases | auto].
Qed.

Lemma encounter_roles (src : pyval) (o : occurrence) :
  In o (encounter src) -> fst o = lit "user" \/ fst o = lit "model".
Proof.
  unfold encounter, msg_occurrences. rewrite in_flat_map.
  intros (msg & _ & Ho). apply in_map_iff in Ho as (seg & <- & _).
  apply resolved_role_cases.
Qed.


Lemma sum_tokens_ext (sel sel' : occurrence -> bool) (l : list occurrence) :
  (forall o, In o l -> sel o = sel' o) -> sum_tokens sel l = sum_tokens sel' l.
Proof.
  intros H. unfold sum_tokens. f_equal. f_equal.
  induction l as [|o l IH]; simpl; [reflexivity|].
  rewrite (H o (or_introl eq_refl)), IH; [reflexivity|].
  intros o' Ho'; apply H; right; exact Ho'.
Qed.




(** The output of a successful conversion, in closed form. *)
Lemma convert_summary (src : pyval) doc stats :
  convert_claude_to_gemini src = Ok (doc, stats) ->
  chunks (chunkedPrompt doc) = map chunk_of (filter counted (encounter src))
  /\ envelope_of doc = envelope_of converted_init
  /\ stats = token_stats
               (summary {| converted := converted_init;
                           token_stats := token_stats_init |}
                        (length (doc_messages src)) (encounter src))
  /\ Forall message_read (doc_messages src).
Proof.
  intros H. apply convert_ok in H as (_ & st & Ht & -> & ->).
  pose proof (traverse_read _ Ht) as Hr.
  apply traverse_summary in Ht. rewrite Ht. repeat split; auto.
Qed.

(* ================================================================= *)
(** ** Roles, thought marks and finish reasons *)



(* ================================================================= *)
(** ** Documents that follow the input contract are converted *)

Lemma convert_on_messages (d : pydict) (msgs : list pyval) :
  dict_lookup (lit "chat_messages") d = Some (PList msgs) ->
  convert_claude_to_gemini (PDict d)
  = (st <- for_each process_message msgs
             {| converted := converted_init; token_stats := token_stats_init |} ;;
     Ok (converted st, token_stats st)).
Proof.
  intros H. unfold convert_claude_to_gemini, validate, traverse, dict_contains,
    py_get. cbn [isinstance_dict negb orb]. rewrite H. reflexivity.
Qed.

Lemma for_each_total {X S} (body : X -> S -> result S) (xs : list X) :
  Forall (fun x => forall st, exists st', body x st = Ok st') xs ->
  forall st, exists st', for_each body xs st = Ok st'.
Proof.
  induction 1 as [|x xs Hx _ IH]; intros st; simpl; [eauto|].
  destruct (Hx st) as (st1 & ->); simpl. apply IH.
Qed.

Lemma str_or_absent_strip (d : pydict) (field : pystr) :
  str_or_absent (dict_lookup field d) = true ->
  exists raw, py_get (PDict d) field (PStr (lit "")) = Ok (PStr raw).
Proof.
  unfold py_get. destruct (dict_lookup field d) as [[| | | |s| |]|];
    simpl; try discriminate; eauto.
Qed.

Lemma valid_segment_total (r : pystr) (seg : pyval) (st : state) :
  valid_segment seg = true ->
  (counted (r, seg) = true -> accepted (seg_text seg) = true) ->
  exists st', process_segment r seg st = Ok st'.
Proof.
  unfold valid_segment, counted, accepted, seg_text, seg_variant,
    trimmed_field, process_segment.
  destruct seg as [| | | | | |d]; try discriminate. cbn [snd py_getitem].
  destruct (dict_lookup (lit "type") d) as [ty|]; [|discriminate].
  cbn [bind]. destruct (py_eq ty (lit "thinking")).
  - intros Hv. apply str_or_absent_strip in Hv as (raw & ->).
    cbn [bind py_strip]. destruct (truthy (strip raw)) eqn:Et; [|eauto].
    unfold count_tokens. rewrite Et; simpl.
    intros Ha. destruct (enc_encode (strip raw)); simpl; [eauto|].
    discriminate (Ha eq_refl).
  - destruct (py_eq ty (lit "text")); [|eauto].
    intros Hv. apply str_or_absent_strip in Hv as (raw & ->).
    cbn [bind py_strip]. destruct (truthy (strip raw)) eqn:Et; [|eauto].
    unfold count_tokens. rewrite Et; simpl.
    intros Ha. destruct (enc_encode (strip raw)); simpl; [eauto|].
    discriminate (Ha eq_refl).
Qed.

Lemma valid_message_total (msg : pyval) (st : state) :
  valid_message msg = true ->
  forallb (fun o => accepted (seg_text (snd o)))
          (filter counted (msg_occurrences msg)) = true ->
  exists st', process_message msg st = Ok st'.
Proof.
  unfold valid_message, msg_occurrences, msg_segments, elements, field_or,
    process_message.
  destruct msg as [| | | | | |d]; try discriminate. cbn [py_getitem py_get].
  destruct (dict_lookup (lit "sender") d) as [sender|]; [|discriminate].
  cbn [bind].
  destruct (dict_lookup (lit "content") d) as [[| | | | |segs|]|];
    try discriminate; cbn [bind py_iter for_each]; [|eauto].
  intros Hv Ha. apply for_each_total.
  rewrite forallb_forall in Hv, Ha. apply Forall_forall.
  intros seg Hseg st0. apply valid_segment_total; [auto|].
  intros Hc. apply (Ha (resolved_role (PDict d), seg)). apply filter_In. split.
  - apply in_map_iff; eauto.
  - unfold counted in *; exact Hc.
Qed.

(** A document that follows the input contract, and whose trimmed texts
    the tokenizer accepts, is converted. *)
Lemma valid_document_converts (src : pyval) :
  valid_document src = true -> tokenizable src = true ->
  exists doc stats, convert_claude_to_gemini src = Ok (doc, stats).
Proof.
  unfold valid_document, tokenizable, encounter, doc_messages, elements,
    field_or.
  destruct src as [| | | | | |d]; try discriminate. cbn [py_get].
  destruct (dict_lookup (lit "chat_messages") d) as [[| | | | |msgs|]|] eqn:Hl;
    try discriminate.
  cbn [py_iter]. intros Hv Ha.
  rewrite (convert_on_messages _ Hl).
  destruct (@for_each_total _ _ process_message msgs) with
    (st := {| converted := converted_init; token_stats := token_stats_init |})
    as (st' & ->); [|simpl; eauto].
  rewrite forallb_forall in Hv, Ha. apply Forall_forall.
  intros msg Hmsg st0. apply valid_message_total; [auto|].
  apply forallb_forall. intros o Ho. apply Ha.
  apply filter_In in Ho as (Ho & Hc). apply filter_In. split; [|exact Hc].
  apply in_flat_map; eauto.
Qed.

(* ================================================================= *)
(** ** Number and order of the chunks *)

Lemma other_segment_skipped (r : pystr) (seg ty : pyval) (st : state) :
  py_getitem seg (lit "type") = Ok ty ->
  py_eq ty (lit "thinking") = false -> py_eq ty (lit "text") = false ->
  process_segment r seg st = Ok st.
Proof.
  intros Hty Hth Htx. unfold process_segment.
  rewrite Hty; simpl. rewrite Hth, Htx; reflexivity.
Qed.

(** C2.  On every document that is converted, the chunks are exactly the
    chunks of the non-empty-after-trim text and thinking segments, taken in
    encounter order (messages in input order, the segments of a message in
    input order, thinking and text alike): so there are no more chunks
    than such segments, and their texts and roles come in that order.
    Every document that follows the input contract is converted, provided
    the tokenizer accepts its texts.  A segment whose [type] is neither
    ["text"] nor ["thinking"] leaves the chunks and every statistics field
    as they were. *)
Theorem chunks_in_encounter_order :
  (forall (src : pyval) doc stats,
      convert_claude_to_gemini src = Ok (doc, stats) ->
      length (chunks (chunkedPrompt doc))
        <= length (filter counted (encounter src))
      /\ chunks (chunkedPrompt doc)
         = map chunk_of (filter counted (encounter src))
      /\ map (fun c => (text c, role c)) (chunks (chunkedPrompt doc))
         = map (fun o => (seg_text (snd o), fst o))
               (filter counted (encounter src)))
  /\ (forall src : pyval,
         valid_document src = true -> tokenizable src = true ->
         exists doc stats, convert_claude_to_gemini src = Ok (doc, stats))
  /\ (forall (r : pystr) (seg ty : pyval) (st : state),
         py_getitem seg (lit "type") = Ok ty ->
         py_eq ty (lit "thinking") = false ->
         py_eq ty (lit "text") = false ->
         process_segment r seg st = Ok st
         /\ counted (r, seg) = false).
Proof.
  split; [|split].
  - intros src doc stats H. apply convert_summary in H as (Hc & _).
    rewrite Hc, length_map, map_map. auto.
  - apply valid_document_converts.
  - intros r seg ty st Hty Hth Htx.
    split; [eapply other_segment_skipped; eassumption|].
    unfold counted, seg_text, seg_variant; simpl.
    rewrite Hty, Hth, Htx; reflexivity.
Qed.

(* ================================================================= *)
(** ** The statistics *)

Lemma process_segment_balanced (r : pystr) (seg : pyval) (st st' : state) :
  balanced (token_stats st) -> process_segment r seg st = Ok st' ->
  balanced (token_stats st').
Proof.
  unfold balanced, process_segment. intros Hb H.
  bind_inv H. destruct (py_eq a (lit "thinking")).
  - bind_inv H. bind_inv H. destruct (truthy a1); [|congruence].
    bind_inv H. injection H as <-. simpl. lia.
  - bind_inv H. destruct (py_eq a0 (lit "text")); [|congruence].
    bind_inv H. bind_inv H. destruct (truthy a2); [|congruence].
    bind_inv H. injection H as <-.
    destruct (str_eqb r (lit "user")); simpl; lia.
Qed.

Lemma process_message_balanced (msg : pyval) (st st' : state) :
  balanced (token_stats st) -> process_message msg st = Ok st' ->
  balanced (token_stats st').
Proof.
  unfold process_message. intros Hb H.
  bind_inv H. bind_inv H. bind_inv H. cbv zeta in H.
  eapply for_each_preserves with (P := fun s => balanced (token_stats s));
    [| |exact H]; [|exact Hb].
  intros seg s s'; apply process_segment_balanced.
Qed.

(** C3.  The statistics of every successful conversion satisfy
    [total_tokens == user_tokens + model_tokens + thinking_tokens]. *)
Theorem total_tokens_is_sum (src : pyval) doc stats :
  convert_claude_to_gemini src = Ok (doc, stats) ->
  total_tokens stats
  = user_tokens stats + model_tokens stats + thinking_tokens stats.
Proof.
  intros H. apply convert_ok in H as (_ & st & Ht & _ & ->).
  unfold traverse in Ht. bind_inv Ht. bind_inv Ht.
  eapply for_each_preserves with (P := fun s => balanced (token_stats s));
    [| |exact Ht]; [|reflexivity].
  intros msg s s'; apply process_message_balanced.
Qed.


(* ================================================================= *)
(** ** Trimming and empty segments *)

Lemma encounter_read (src : pyval) :
  Forall message_read (doc_messages src) ->
  Forall (fun o => segment_read (snd o)) (encounter src).
Proof.
  intros Hr. unfold encounter. apply Forall_flat_map.
  eapply Forall_impl; [|exact Hr]. intros msg (_ & _ & Hsegs).
  unfold msg_occurrences. apply Forall_map. exact Hsegs.
Qed.

Lemma empty_segment_skipped (r : pystr) (d : pydict) (ty : pyval)
      (field : pystr) (st : state) :
  dict_lookup (lit "type") d = Some ty ->
  (py_eq ty (lit "thinking") = true /\ field = lit "thinking"
   \/ py_eq ty (lit "thinking") = false /\ py_eq ty (lit "text") = true
      /\ field = lit "text") ->
  (dict_lookup field d = None
   \/ exists s, dict_lookup field d = Some (PStr s)
                /\ forallb isspace s = true) ->
  process_segment r (PDict d) st = Ok st /\ counted (r, PDict d) = false.
Proof.
  intros Hty Hfield Hpayload.
  assert (Hstrip : exists raw, py_get (PDict d) field (PStr (lit "")) = Ok (PStr raw)
                               /\ strip raw = []).
  { unfold py_get. destruct Hpayload as [-> | (s & -> & Hs)].
    - exists (lit ""); split; reflexivity.
    - exists s; split; [reflexivity | apply strip_spaces; exact Hs]. }
  destruct Hstrip as (raw & Hget & Hraw).
  assert (Hgi : py_getitem (PDict d) (lit "type") = Ok ty)
    by (unfold py_getitem; rewrite Hty; reflexivity).
  unfold process_segment, counted, seg_text, seg_variant, trimmed_field.
  cbn [snd]. rewrite Hgi. cbn [bind].
  destruct Hfield as [(Hth & ->) | (Hth & Htx & ->)].
  - rewrite Hth, Hget. cbn [bind py_strip]. rewrite Hraw; split; reflexivity.
  - rewrite Hth. cbn [bind]. rewrite Htx, Hget. cbn [bind py_strip].
    rewrite Hraw; split; reflexivity.
Qed.


(* ================================================================= *)
(** ** The check on the input *)

Lemma bind_raise {A B} (m : result A) (k : A -> result B) (e : exn) :
  bind m k = Raise e -> m = Raise e \/ exists a, m = Ok a /\ k a = Raise e.
Proof. destruct m as [a|e']; simpl; [eauto | intros [= <-]; auto]. Qed.

Lemma py_getitem_raise_key v k e :
  py_getitem v k = Raise e -> e = KeyError k \/ e = TypeError.
Proof.
  destruct v; simpl; try (intros [= <-]; auto).
  destruct (dict_lookup k d); [discriminate | intros [= <-]; auto].
Qed.

Lemma py_get_raise_attr v k dflt e :
  py_get v k dflt = Raise e -> e = AttributeError.
Proof.
  destruct v; simpl; try (intros [= <-]; reflexivity).
  destruct (dict_lookup k d); discriminate.
Qed.

Lemma py_iter_raise_type v e : py_iter v = Raise e -> e = TypeError.
Proof. destruct v; simpl; try discriminate; intros [= <-]; reflexivity. Qed.

Lemma py_strip_ok v t : py_strip v = Ok t -> exists raw, t = strip raw.
Proof. destruct v; simpl; try discriminate. intros [= <-]; eauto. Qed.

Lemma py_strip_raise_attr v e : py_strip v = Raise e -> e = AttributeError.
Proof. destruct v; simpl; try discriminate; intros [= <-]; reflexivity. Qed.

Lemma process_segment_error r seg st e :
  process_segment r seg st = Raise e -> traversal_error e.
Proof.
  unfold process_segment, traversal_error. intros H.
  apply bind_raise in H as [H | (ty & _ & H)].
  { apply py_getitem_raise_key in H as [-> | ->]; auto. }
  destruct (py_eq ty (lit "thinking")).
  - apply bind_raise in H as [H | (raw & _ & H)].
    { apply py_get_raise_attr in H as ->; auto. }
    apply bind_raise in H as [H | (t & Ht & H)].
    { apply py_strip_raise_attr in H as ->; auto. }
    destruct (truthy t); [|discriminate].
    apply bind_raise in H as [H | (n & _ & H)]; [|discriminate].
    apply count_tokens_raised in H as (Hne & Hraise).
    apply py_strip_ok in Ht as (raw0 & ->).
    do 4 right. exists (strip raw0).
    repeat split; auto using strip_lstrip, strip_rstrip.
  - apply bind_raise in H as [H | (ty' & _ & H)].
    { apply py_getitem_raise_key in H as [-> | ->]; auto. }
    destruct (py_eq ty' (lit "text")); [|discriminate].
    apply bind_raise in H as [H | (raw & _ & H)].
    { apply py_get_raise_attr in H as ->; auto. }
    apply bind_raise in H as [H | (t & Ht & H)].
    { apply py_strip_raise_attr in H as ->; auto. }
    destruct (truthy t); [|discriminate].
    apply bind_raise in H as [H | (n & _ & H)]; [|discriminate].
    apply count_tokens_raised in H as (Hne & Hraise).
    apply py_strip_ok in Ht as (raw0 & ->).
    do 4 right. exists (strip raw0).
    repeat split; auto using strip_lstrip, strip_rstrip.
Qed.

Lemma process_message_error msg st e :
  process_message msg st = Raise e -> traversal_error e.
Proof.
  unfold process_message. intros H.
  apply bind_raise in H as [H | (sender & _ & H)].
  { apply py_getitem_raise_key in H as [-> | ->]; unfold traversal_error;
      auto. }
  apply bind_raise in H as [H | (content & _ & H)].
  { apply py_get_raise_attr in H as ->; unfold traversal_error; auto. }
  apply bind_raise in H as [H | (segs & _ & H)].
  { apply py_iter_raise_type in H as ->; unfold traversal_error; auto. }
  cbv zeta in H. eapply for_each_raise; [|exact H].
  intros seg s e'; apply process_segment_error.
Qed.

Lemma traverse_error src e : traverse src = Raise e -> traversal_error e.
Proof.
  unfold traverse. intros H.
  apply bind_raise in H as [H | (v & _ & H)].
  { apply py_get_raise_attr in H as ->; unfold traversal_error; auto. }
  apply bind_raise in H as [H | (msgs & _ & H)].
  { apply py_iter_raise_type in H as ->; unfold traversal_error; auto. }
  eapply for_each_raise; [|exact H].
  intros msg s e'; apply process_message_error.
Qed.

(** C6.  An input that is not a dictionary, or that has no
    [chat_messages] key, makes the conversion raise the [ValueError] of the
    check, whatever the tokenizer does: nothing else is run and no
    document or statistics come back.  On a dictionary that has the key the
    check passes and the conversion is the traversal; a [ValueError] that
    such a conversion ends with is not the check's but one that the
    tokenizer raised on a text of the input. *)
Theorem invalid_input_rejected :
  (forall src : pyval,
      isinstance_dict src = false
      \/ dict_contains (lit "chat_messages") src = false ->
      validate src = Raise (ValueError invalid_input_msg)
      /\ convert_claude_to_gemini src = Raise (ValueError invalid_input_msg))
  /\ (forall src : pyval,
         isinstance_dict src = true ->
         dict_contains (lit "chat_messages") src = true ->
         validate src = Ok tt
         /\ convert_claude_to_gemini src
            = (st <- traverse src ;; Ok (converted st, token_stats st))
         /\ forall msg,
             convert_claude_to_gemini src = Raise (ValueError msg) ->
             exists t, trimmed_text t /\ enc_encode t = Raise (ValueError msg)).
Proof.
  split.
  - intros src H.
    assert (Hv : validate src = Raise (ValueError invalid_input_msg)).
    { unfold validate. destruct H as [-> | ->]; simpl;
        [|rewrite orb_true_r]; reflexivity. }
    split; [exact Hv|]. unfold convert_claude_to_gemini. rewrite Hv; reflexivity.
  - intros src Hd Hk.
    assert (Hv : validate src = Ok tt).
    { unfold validate. rewrite Hd, Hk; reflexivity. }
    assert (Hc : convert_claude_to_gemini src
                 = (st <- traverse src ;; Ok (converted st, token_stats st))).
    { unfold convert_claude_to_gemini. rewrite Hv; reflexivity. }
    split; [exact Hv|]. split; [exact Hc|]. intros msg H.
    rewrite Hc in H.
    apply bind_raise in H as [H | (st & _ & H)]; [|discriminate].
    apply traverse_error in H.
    destruct H as [H | [H | [H | [H | H]]]]; try discriminate. exact H.
Qed.

(* ================================================================= *)
(** ** Strict and defaulted lookups *)

Lemma message_without_sender (d : pydict) (st : state) :
  dict_lookup (lit "sender") d = None ->
  process_message (PDict d) st = Raise (KeyError (lit "sender")).
Proof.
  intros H. unfold process_message, py_getitem. rewrite H; reflexivity.
Qed.

Lemma segment_without_type (r : pystr) (d : pydict) (st : state) :
  dict_lookup (lit "type") d = None ->
  process_segment r (PDict d) st = Raise (KeyError (lit "type")).
Proof.
  intros H. unfold process_segment, py_getitem. rewrite H; reflexivity.
Qed.

Lemma process_message_on_segments (d : pydict) (sender : pyval)
      (segs : list pyval) (st : state) :
  dict_lookup (lit "sender") d = Some sender ->
  dict_lookup (lit "content") d = Some (PList segs) ->
  process_message (PDict d) st
  = for_each (process_segment (role_of_sender sender)) segs
             (with_stats incr_message_count st).
Proof.
  intros Hs Hc. unfold process_message, py_getitem, py_get.
  rewrite Hs, Hc; reflexivity.
Qed.

(** C7.  The [sender] of a message and the [type] of a segment are looked
    up strictly: a message without [sender] and a segment without [type]
    raise [KeyError], and the conversion ends with that error as soon as
    the traversal reaches them.  The [content] of a message and the [text]
    and [thinking] of a segment are looked up with a default: a message
    without [content] is counted and has no segments, a segment without
    its payload field is skipped, and neither raises. *)
Theorem strict_and_defaulted_lookups :
  (forall (d : pydict) (st : state),
      dict_lookup (lit "sender") d = None ->
      process_message (PDict d) st = Raise (KeyError (lit "sender")))
  /\ (forall (r : pystr) (d : pydict) (st : state),
         dict_lookup (lit "type") d = None ->
         process_segment r (PDict d) st = Raise (KeyError (lit "type")))
  /\ (forall (src : pydict) (pre post : list pyval) (d : pydict) (st1 : state),
         dict_lookup (lit "chat_messages") src
         = Some (PList (pre ++ PDict d :: post)) ->
         for_each process_message pre
                  {| converted := converted_init;
                     token_stats := token_stats_init |} = Ok st1 ->
         dict_lookup (lit "sender") d = None ->
         convert_claude_to_gemini (PDict src) = Raise (KeyError (lit "sender")))
  /\ (forall (src : pydict) (pre post : list pyval) (m : pydict)
             (sender : pyval) (spre spost : list pyval) (d : pydict)
             (st1 st2 : state),
         dict_lookup (lit "chat_messages") src
         = Some (PList (pre ++ PDict m :: post)) ->
         for_each process_message pre
                  {| converted := converted_init;
                     token_stats := token_stats_init |} = Ok st1 ->
         dict_lookup (lit "sender") m = Some sender ->
         dict_lookup (lit "content") m = Some (PList (spre ++ PDict d :: spost)) ->
         for_each (process_segment (role_of_sender sender)) spre
                  (with_stats incr_message_count st1) = Ok st2 ->
         dict_lookup (lit "type") d = None ->
         convert_claude_to_gemini (PDict src) = Raise (KeyError (lit "type")))
  /\ (forall (d : pydict) (sender : pyval) (st : state),
         dict_lookup (lit "sender") d = Some sender ->
         dict_lookup (lit "content") d = None ->
         process_message (PDict d) st = Ok (with_stats incr_message_count st))
  /\ (forall (r : pystr) (d : pydict) (ty : pyval) (st : state),
         dict_lookup (lit "type") d = Some ty ->
         py_eq ty (lit "thinking") = true ->
         dict_lookup (lit "thinking") d = None ->
         process_segment r (PDict d) st = Ok st)
  /\ (forall (r : pystr) (d : pydict) (ty : pyval) (st : state),
         dict_lookup (lit "type") d = Some ty ->
         py_eq ty (lit "thinking") = false ->
         py_eq ty (lit "text") = true ->
         dict_lookup (lit "text") d = None ->
         process_segment r (PDict d) st = Ok st).
Proof.
  repeat apply conj.
  - apply message_without_sender.
  - apply segment_without_type.
  - intros src pre post d st1 Hsrc Hpre Hd.
    rewrite (convert_on_messages _ Hsrc).
    rewrite (@for_each_fail_fast _ _ _ pre (PDict d) post _ st1 _ Hpre
               (message_without_sender d st1 Hd)).
    reflexivity.
  - intros src pre post m sender spre spost d st1 st2 Hsrc Hpre Hs Hc Hspre Hd.
    rewrite (convert_on_messages _ Hsrc).
    rewrite (@for_each_fail_fast _ _ _ pre (PDict m) post _ st1
               (KeyError (lit "type")) Hpre); [reflexivity|].
    rewrite (process_message_on_segments _ _ Hs Hc).
    apply (@for_each_fail_fast _ _ _ spre (PDict d) spost _ st2 _ Hspre).
    apply segment_without_type; exact Hd.
  - intros d sender st Hs Hc. unfold process_message, py_getitem, py_get.
    rewrite Hs, Hc; reflexivity.
  - intros r d ty st Hty Hth Hp.
    eapply empty_segment_skipped; eauto.
  - intros r d ty st Hty Hth Htx Hp.
    eapply empty_segment_skipped; eauto.
Qed.

(* ================================================================= *)
(** ** The envelope *)

(** The two float literals: [1.0] is the binary64 one and [0.95] the
    binary64 quotient of 95 by 100, the nearest double to the decimal. *)
Lemma float_literals :
  float_1_0 = SFone 53 1024
  /\ float_0_95 = SFdiv 53 1024 (binary_normalize 53 1024 95 0 false)
                        (binary_normalize 53 1024 100 0 false)
  /\ valid_binary 53 1024 float_1_0 = true
  /\ valid_binary 53 1024 float_0_95 = true.
Proof. repeat split; vm_compute; reflexivity. Qed.

(** C8.  Whatever the input holds, the document of a successful
    conversion carries the fixed envelope: the [runSettings] with their
    literal values, an empty [systemInstruction] and the single pending
    input [{text: "", role: "user"}]. *)
Theorem fixed_envelope (src : pyval) doc stats :
  convert_claude_to_gemini src = Ok (doc, stats) ->
  runSettings doc
  = {| temperature := float_1_0;
       model := lit "models/gemini-2.5-pro-preview-03-25";
       topP := float_0_95;
       topK := 64;
       maxOutputTokens := 65536;
       safetySettings :=
         map (fun c => {| category := lit c; threshold := lit "OFF" |})
             [ "HARM_CATEGORY_HARASSMENT"; "HARM_CATEGORY_HATE_SPEECH";
               "HARM_CATEGORY_SEXUALLY_EXPLICIT";
               "HARM_CATEGORY_DANGEROUS_CONTENT" ]%string;
       responseMimeType := lit "text/plain";
       enableCodeExecution := false;
       enableEnhancedCivicAnswers := true;
       enableSearchAsATool := false;
       enableBrowseAsATool := false;
       enableAutoFunctionResponse := false |}
  /\ systemInstruction doc = []
  /\ pendingInputs (chunkedPrompt doc)
     = [ {| pending_text := lit ""; pending_role := lit "user" |} ].
Proof.
  intros H. apply convert_summary in H as (_ & He & _).
  unfold envelope_of in He. injection He as -> -> ->.
  repeat split.
Qed.

(* ================================================================= *)
(** ** A [chat_messages] that is not a list *)

(** C10, amended.  The check looks at the presence of the key only: on
    every dictionary that has [chat_messages] it passes, whatever the
    value.  When the value is [None], a boolean or a number, or a
    non-empty string or dictionary, the traversal ends with a [TypeError],
    which is neither the error of the check nor a [KeyError]; so does a
    list, when the traversal reaches an element of it that is not a
    dictionary.  When the value is the empty string or the empty
    dictionary the loop has nothing to visit, and the conversion succeeds
    with no chunk and the initial statistics. *)
Theorem chat_messages_value_unchecked (d : pydict) (v : pyval) :
  dict_lookup (lit "chat_messages") d = Some v ->
  validate (PDict d) = Ok tt
  /\ match v with
     | PNone | PBool _ | PInt _ | PFloat _ | PStr (_ :: _) | PDict (_ :: _) =>
         convert_claude_to_gemini (PDict d) = Raise TypeError
     | PStr [] | PDict [] =>
         convert_claude_to_gemini (PDict d)
         = Ok (converted_init, token_stats_init)
     | PList _ => True
     end
  /\ (forall (pre post : list pyval) (x : pyval) (st1 : state),
         v = PList (pre ++ x :: post) ->
         for_each process_message pre
                  {| converted := converted_init;
                     token_stats := token_stats_init |} = Ok st1 ->
         isinstance_dict x = false ->
         convert_claude_to_gemini (PDict d) = Raise TypeError).
Proof.
  intros H.
  assert (Hv : validate (PDict d) = Ok tt).
  { unfold validate, dict_contains; simpl. rewrite H; reflexivity. }
  split; [exact Hv|]. split.
  - unfold convert_claude_to_gemini, traverse, py_get. rewrite Hv, H.
    destruct v as [| | | |[|c s]|l|[|[k x] d']]; reflexivity || exact I.
  - intros pre post x st1 -> Hpre Hx.
    rewrite (convert_on_messages _ H).
    rewrite (@for_each_fail_fast _ _ _ pre x post _ st1 TypeError Hpre);
      [reflexivity|].
    destruct x; try reflexivity; discriminate.
Qed.

(* ================================================================= *)
(** ** The statistics and the chunks *)

Lemma filter_filter {A} (f g : A -> bool) (l : list A) :
  filter f (filter g l) = filter (fun x => g x && f x) l.
Proof.
  induction l as [|x l IH]; simpl; [reflexivity|].
  destruct (g x); simpl; [destruct (f x)|]; rewrite IH; reflexivity.
Qed.

Lemma chunk_tokens_of_occurrences (sel : chunk -> bool) (l : list occurrence) :
  chunk_tokens sel (map chunk_of (filter counted l))
  = sum_tokens (fun o => counted o && sel (chunk_of o)) l.
Proof.
  unfold chunk_tokens, sum_tokens.
  rewrite filter_map_swap, map_map, filter_filter. reflexivity.
Qed.

Lemma chunk_of_is_thought (o : occurrence) :
  chunk_is_thought (chunk_of o) = is_thinking o.
Proof. unfold chunk_is_thought; simpl. destruct (is_thinking o); reflexivity. Qed.

Lemma existsb_none_filter {A} (f : A -> bool) (l : list A) :
  existsb f l = false -> filter f l = [].
Proof.
  induction l as [|x l IH]; simpl; [reflexivity|].
  destruct (f x); simpl; [discriminate | exact IH].
Qed.

(** X1.  The statistics can be read off the chunks of the document:
    [total_tokens] is the sum of all token counts, [thinking_tokens] the
    sum over the chunks marked [isThought], [user_tokens] the sum over the
    unmarked chunks of role ["user"], [model_tokens] the sum over the
    chunks that carry a [finishReason], and [has_thinking] says whether a
    chunk marked [isThought] exists. *)
Theorem statistics_from_chunks (src : pyval) doc stats :
  convert_claude_to_gemini src = Ok (doc, stats) ->
  total_tokens stats
  = chunk_tokens (fun _ => true) (chunks (chunkedPrompt doc))
  /\ thinking_tokens stats
     = chunk_tokens chunk_is_thought (chunks (chunkedPrompt doc))
  /\ user_tokens stats
     = chunk_tokens chunk_is_user_text (chunks (chunkedPrompt doc))
  /\ model_tokens stats
     = chunk_tokens chunk_has_finish_reason (chunks (chunkedPrompt doc))
  /\ (has_thinking stats = true <->
      exists c, In c (chunks (chunkedPrompt doc)) /\ isThought c = Some true).
Proof.
  intros H. apply convert_summary in H as (-> & _ & -> & _).
  rewrite !chunk_tokens_of_occurrences. simpl.
  split; [|split; [|split; [|split]]].
  - apply sum_tokens_ext. intros o _. rewrite andb_true_r; reflexivity.
  - apply sum_tokens_ext. intros o _.
    rewrite chunk_of_is_thought. apply andb_comm.
  - apply sum_tokens_ext. intros o _. unfold sel_user, chunk_is_user_text,
      has_role. rewrite chunk_of_is_thought. simpl role.
    destruct (counted o) eqn:Hc; [|rewrite andb_false_r; reflexivity].
    rewrite (counted_variant o Hc). rewrite andb_true_r; reflexivity.
  - apply sum_tokens_ext. intros o Ho. unfold sel_model, has_role,
      chunk_has_finish_reason. simpl finishReason.
    destruct (counted o) eqn:Hc; [|rewrite andb_false_r; reflexivity].
    rewrite (counted_variant o Hc).
    destruct (is_thinking o); [reflexivity|]. simpl.
    destruct (encounter_roles _ _ Ho) as [-> | ->]; reflexivity.
  - rewrite existsb_exists. split.
    + intros (o & Ho & Hs). apply andb_true_iff in Hs as (Hth & Hc).
      exists (chunk_of o). split.
      * apply in_map, filter_In; auto.
      * simpl. rewrite Hth; reflexivity.
    + intros (c & Hin & Hc). apply in_map_iff in Hin as (o & <- & Ho).
      apply filter_In in Ho as (Ho & Hcnt). exists o. split; [exact Ho|].
      unfold sel_thinking. rewrite Hcnt, andb_true_r.
      simpl in Hc. destruct (is_thinking o); [reflexivity | discriminate].
Qed.

(** X2.  The page leaves the line of the thinking tokens out when
    [has_thinking] is false; the count it leaves out is then zero. *)
Theorem no_thinking_no_thinking_tokens (src : pyval) doc stats :
  convert_claude_to_gemini src = Ok (doc, stats) ->
  has_thinking stats = false -> thinking_tokens stats = 0.
Proof.
  intros H. apply convert_summary in H as (_ & _ & -> & _). simpl.
  intros Hn. unfold sum_tokens. rewrite (existsb_none_filter _ _ Hn).
  reflexivity.
Qed.

(* ================================================================= *)
(** ** Fields the conversion does not read *)

(** X3.  The conversion reads [chat_messages] and nothing else of its
    input, [sender] and [content] and nothing else of a message, [type],
    [text] and [thinking] and nothing else of a segment: two dictionaries
    that agree on these keys give the same result, errors included. *)
Theorem unread_fields_do_not_matter :
  (forall d1 d2 : pydict,
      dict_lookup (lit "chat_messages") d1 = dict_lookup (lit "chat_messages") d2 ->
      convert_claude_to_gemini (PDict d1) = convert_claude_to_gemini (PDict d2))
  /\ (forall (m1 m2 : pydict) (st : state),
         dict_lookup (lit "sender") m1 = dict_lookup (lit "sender") m2 ->
         dict_lookup (lit "content") m1 = dict_lookup (lit "content") m2 ->
         process_message (PDict m1) st = process_message (PDict m2) st)
  /\ (forall (r : pystr) (s1 s2 : pydict) (st : state),
         dict_lookup (lit "type") s1 = dict_lookup (lit "type") s2 ->
         dict_lookup (lit "thinking") s1 = dict_lookup (lit "thinking") s2 ->
         dict_lookup (lit "text") s1 = dict_lookup (lit "text") s2 ->
         process_segment r (PDict s1) st = process_segment r (PDict s2) st).
Proof.
  repeat apply conj.
  - intros d1 d2 H.
    unfold convert_claude_to_gemini, validate, traverse, dict_contains, py_get.
    rewrite H; reflexivity.
  - intros m1 m2 st Hs Hc. unfold process_message, py_getitem, py_get.
    rewrite Hs, Hc; reflexivity.
  - intros r s1 s2 st Hty Hth Htx. unfold process_segment, py_getitem, py_get.
    rewrite Hty, Hth, Htx; reflexivity.
Qed.

(* ================================================================= *)
(** ** Conversion of a concatenation *)

(** When what a step does to the state does not decide whether it raises,
    neither does the state the loop starts from. *)
Lemma for_each_uniform {X S} (body : X -> S -> result S) (step : S -> X -> S) :
  (forall x s1 s2,
      match body x s1 with
      | Ok s1' => s1' = step s1 x /\ body x s2 = Ok (step s2 x)
      | Raise e => body x s2 = Raise e
      end) ->
  forall xs s1 s2,
    match for_each body xs s1 with
    | Ok s1' => s1' = fold_left step xs s1
                /\ for_each body xs s2 = Ok (fold_left step xs s2)
    | Raise e => for_each body xs s2 = Raise e
    end.
Proof.
  intros Hbody xs; induction xs as [|x xs IH]; intros s1 s2; simpl; [auto|].
  specialize (Hbody x s1 s2).
  destruct (body x s1) as [s1'|e]; simpl.
  - destruct Hbody as (-> & ->); simpl. apply IH.
  - rewrite Hbody; reflexivity.
Qed.

Lemma fold_left_map {A B C} (f : A -> B -> A) (g : C -> B) (l : list C) (a : A) :
  fold_left f (map g l) a = fold_left (fun s x => f s (g x)) l a.
Proof. revert a; induction l as [|x l IH]; intros a; simpl; auto. Qed.

Lemma process_segment_uniform (r : pystr) (seg : pyval) (s1 s2 : state) :
  match process_segment r seg s1 with
  | Ok s1' => s1' = after_occurrence s1 (r, seg)
              /\ process_segment r seg s2 = Ok (after_occurrence s2 (r, seg))
  | Raise e => process_segment r seg s2 = Raise e
  end.
Proof.
  unfold process_segment, after_occurrence, counted, chunk_of, stats_after,
    is_thinking, seg_text, seg_variant, trimmed_field; simpl.
  destruct (py_getitem seg (lit "type")) as [ty|e]; simpl; [|reflexivity].
  destruct (py_eq ty (lit "thinking")) eqn:Eth.
  - destruct (py_get seg (lit "thinking") (PStr (lit ""))) as [raw|e];
      simpl; [|reflexivity].
    destruct (py_strip raw) as [t|e]; simpl; [|reflexivity].
    destruct (truthy t) eqn:Et; [|split; reflexivity].
    destruct (count_tokens t) as [n|e] eqn:En; simpl; [|reflexivity].
    apply count_tokens_ok in En; subst n. split; reflexivity.
  - destruct (py_eq ty (lit "text")) eqn:Etx; [|split; reflexivity].
    destruct (py_get seg (lit "text") (PStr (lit ""))) as [raw|e];
      simpl; [|reflexivity].
    destruct (py_strip raw) as [t|e]; simpl; [|reflexivity].
    destruct (truthy t) eqn:Et; [|split; reflexivity].
    destruct (count_tokens t) as [n|e] eqn:En; simpl; [|reflexivity].
    apply count_tokens_ok in En; subst n.
    destruct (str_eqb r (lit "user")); split; reflexivity.
Qed.

Lemma process_message_uniform (msg : pyval) (s1 s2 : state) :
  match process_message msg s1 with
  | Ok s1' => s1' = after_message s1 msg
              /\ process_message msg s2 = Ok (after_message s2 msg)
  | Raise e => process_message msg s2 = Raise e
  end.
Proof.
  unfold process_message, after_message, msg_occurrences, msg_segments,
    elements, field_or, resolved_role.
  destruct (py_getitem msg (lit "sender")) as [sender|e]; simpl;
    [|reflexivity].
  destruct (py_get msg (lit "content") (PList [])) as [content|e]; simpl;
    [|reflexivity].
  destruct (py_iter content) as [segs|e]; simpl; [|reflexivity].
  fold (role_of_sender sender). rewrite !fold_left_map.
  apply (for_each_uniform (process_segment (role_of_sender sender))
           (fun s seg => after_occurrence s (role_of_sender sender, seg))).
  intros seg t1 t2. apply process_segment_uniform.
Qed.

(** X4.  Converting the messages [l1 ++ l2] amounts to converting [l1]
    and [l2]: when both convert, the chunks are those of [l1] followed by
    those of [l2], every count is the sum of the two counts and
    [has_thinking] is their disjunction; when one of them raises, the
    whole raises the same exception, that of [l1] first. *)
Theorem conversion_of_concatenation (d1 d2 d : pydict) (l1 l2 : list pyval) :
  dict_lookup (lit "chat_messages") d1 = Some (PList l1) ->
  dict_lookup (lit "chat_messages") d2 = Some (PList l2) ->
  dict_lookup (lit "chat_messages") d = Some (PList (l1 ++ l2)) ->
  match convert_claude_to_gemini (PDict d1),
        convert_claude_to_gemini (PDict d2) with
  | Ok (doc1, stats1), Ok (doc2, stats2) =>
      exists doc stats,
        convert_claude_to_gemini (PDict d) = Ok (doc, stats)
        /\ chunks (chunkedPrompt doc)
           = chunks (chunkedPrompt doc1) ++ chunks (chunkedPrompt doc2)
        /\ total_tokens stats = total_tokens stats1 + total_tokens stats2
        /\ user_tokens stats = user_tokens stats1 + user_tokens stats2
        /\ model_tokens stats = model_tokens stats1 + model_tokens stats2
        /\ thinking_tokens stats
           = thinking_tokens stats1 + thinking_tokens stats2
        /\ message_count stats = message_count stats1 + message_count stats2
        /\ has_thinking stats = has_thinking stats1 || has_thinking stats2
  | Ok _, Raise e => convert_claude_to_gemini (PDict d) = Raise e
  | Raise e, _ => convert_claude_to_gemini (PDict d) = Raise e
  end.
Proof.
  intros H1 H2 H.
  rewrite (convert_on_messages _ H1), (convert_on_messages _ H2),
    (convert_on_messages _ H), for_each_app.
  set (st0 := {| converted := converted_init; token_stats := token_stats_init |}).
  destruct (for_each process_message l1 st0) as [st1|e1] eqn:E1; simpl;
    [|reflexivity].
  pose proof (for_each_uniform process_message after_message
                process_message_uniform l2 st0 st1) as U.
  destruct (for_each process_message l2 st0) as [st2|e2]; simpl.
  - destruct U as (-> & ->). simpl.
    apply (for_each_fold process_message after_message) in E1;
      [|intros; apply process_message_step; assumption].
    subst st1. rewrite !fold_messages. simpl.
    eexists; eexists; split; [reflexivity|]. simpl.
    repeat split; try lia.
  - rewrite U; reflexivity.
Qed.

(* ================================================================= *)
(** ** When the conversion succeeds *)

Lemma py_getitem_ok (v : pyval) (k : pystr) (x : pyval) :
  py_getitem v k = Ok x -> exists d, v = PDict d /\ dict_lookup k d = Some x.
Proof.
  destruct v; simpl; try discriminate.
  destruct (dict_lookup k d) eqn:E; [|discriminate].
  intros [= ->]; eauto.
Qed.

Lemma segment_read_valid (seg : pyval) :
  segment_read seg -> valid_segment seg = true.
Proof.
  intros ((ty & Hty) & Hp & _).
  destruct (py_getitem_ok _ _ Hty) as (d & -> & Hl).
  unfold seg_variant in Hp. rewrite Hty in Hp.
  unfold valid_segment. rewrite Hl.
  assert (Hs : forall field,
             payload_read (PDict d) field ->
             str_or_absent (dict_lookup field d) = true).
  { intros field (raw & Hg & _). unfold py_get in Hg.
    destruct (dict_lookup field d) as [x|]; [|reflexivity].
    injection Hg as ->; reflexivity. }
  destruct (py_eq ty (lit "thinking")); [auto|].
  destruct (py_eq ty (lit "text")); auto.
Qed.

Lemma message_read_readable (msg : pyval) :
  message_read msg -> readable_message msg = true.
Proof.
  intros ((sender & Hs & _) & (content & Hc & Hi) & Hsegs).
  unfold readable_message. rewrite Hs, Hc, Hi.
  apply forallb_forall. rewrite Forall_forall in Hsegs.
  intros seg Hseg. apply segment_read_valid, Hsegs, Hseg.
Qed.

Lemma readable_message_total (msg : pyval) (st : state) :
  readable_message msg = true ->
  forallb (fun o => accepted (seg_text (snd o)))
          (filter counted (msg_occurrences msg)) = true ->
  exists st', process_message msg st = Ok st'.
Proof.
  unfold readable_message, msg_occurrences, msg_segments, elements, field_or,
    process_message.
  destruct (py_getitem msg (lit "sender")) as [sender|e]; [|discriminate].
  destruct (py_get msg (lit "content") (PList [])) as [content|e];
    [|discriminate].
  cbn [bind]. destruct (py_iter content) as [segs|e]; [|discriminate].
  cbn [bind]. intros Hv Ha. apply for_each_total.
  rewrite forallb_forall in Hv, Ha. apply Forall_forall.
  intros seg Hseg st0. apply valid_segment_total; [auto|].
  intros Hc. apply (Ha (resolved_role msg, seg)). apply filter_In. split.
  - apply in_map_iff; eauto.
  - unfold counted in *; exact Hc.
Qed.

(** X5.  The conversion returns a document exactly when its input is a
    dictionary with a [chat_messages] that can be iterated, every message
    is a dictionary with a [sender] and an iterable [content] (or none),
    every segment is a dictionary with a [type] whose [text] or [thinking]
    payload, when present, is a string, and the tokenizer accepts the
    trimmed text of every non-empty text or thinking segment. *)
Theorem conversion_succeeds_iff (src : pyval) :
  (exists doc stats, convert_claude_to_gemini src = Ok (doc, stats))
  <-> readable_document src = true /\ tokenizable src = true.
Proof.
  split.
  - intros (doc & stats & H).
    pose proof (convert_summary _ H) as (_ & _ & _ & Hr).
    apply convert_ok in H as (Hv & st & Ht & _).
    split.
    + unfold readable_document. unfold validate in Hv.
      destruct (isinstance_dict src); [|discriminate].
      destruct (dict_contains (lit "chat_messages") src); [|discriminate].
      simpl. unfold traverse in Ht. bind_inv Ht. bind_inv Ht.
      unfold doc_messages, elements, field_or in *. rewrite Ha in *.
      rewrite Ha0 in *. apply forallb_forall. rewrite Forall_forall in Hr.
      intros msg Hmsg. apply message_read_readable, Hr, Hmsg.
    + unfold tokenizable. apply forallb_forall. intros o Ho.
      apply filter_In in Ho as (Ho & Hc).
      pose proof (encounter_read _ Hr) as He. rewrite Forall_forall in He.
      destruct (He o Ho) as (_ & _ & Hn).
      unfold counted in Hc. unfold count_tokens in Hn. rewrite Hc in Hn.
      unfold accepted. destruct (enc_encode (seg_text (snd o)));
        [reflexivity | discriminate].
  - intros (Hr & Ha). unfold readable_document in Hr.
    apply andb_true_iff in Hr as (Hr & Hm).
    apply andb_true_iff in Hr as (Hd & Hk).
    unfold tokenizable, encounter, doc_messages, elements in Ha.
    unfold convert_claude_to_gemini, validate, traverse.
    rewrite Hd, Hk. cbn [negb orb bind].
    unfold field_or in Hm, Ha.
    destruct (py_get src (lit "chat_messages") (PList [])) as [v|e] eqn:Hg.
    2:{ destruct src as [| | | | | |d]; try discriminate.
        unfold py_get in Hg. destruct (dict_lookup (lit "chat_messages") d);
          discriminate. }
    cbn [bind]. destruct (py_iter v) as [msgs|e]; [|discriminate].
    cbn [bind].
    destruct (@for_each_total _ _ process_message msgs) with
      (st := {| converted := converted_init; token_stats := token_stats_init |})
      as (st' & ->); [|simpl; eauto].
    rewrite forallb_forall in Hm, Ha. apply Forall_forall.
    intros msg Hmsg st0. apply readable_message_total; [auto|].
    apply forallb_forall. intros o Ho. apply Ha.
    apply filter_In in Ho as (Ho & Hc). apply filter_In. split; [|exact Hc].
    apply in_flat_map; eauto.
Qed.

(* ================================================================= *)
(** ** The exceptions of the conversion *)

(** X6.  A conversion that raises ends either with the [ValueError] of
    the check and its message, the check having refused the input, or,
    the check having passed, with a [KeyError] whose key is ["sender"] or
    ["type"], with a [TypeError] or an [AttributeError], or with the very
    exception that the tokenizer raised on a text it was given; such a
    text was not empty and had no whitespace at either end. *)
Theorem conversion_errors (src : pyval) (e : exn) :
  convert_claude_to_gemini src = Raise e ->
  (e = ValueError invalid_input_msg /\ validate src = Raise e)
  \/ (validate src = Ok tt
      /\ (e = KeyError (lit "sender") \/ e = KeyError (lit "type")
          \/ e = TypeError \/ e = AttributeError
          \/ exists t, trimmed_text t /\ enc_encode t = Raise e)).
Proof.
  unfold convert_claude_to_gemini. intros H.
  apply bind_raise in H as [H | ([] & Hv & H)].
  { left. split; [|exact H]. unfold validate in H.
    destruct (_ || _); [|discriminate]. injection H as <-. reflexivity. }
  right. split; [exact Hv|].
  apply bind_raise in H as [H | (st & _ & H)]; [|discriminate].
  apply traverse_error in H. exact H.
Qed.

(* ================================================================= *)
(** ** Whitespace around a payload *)

Lemma lstrip_app_spaces (pre s : pystr) :
  forallb isspace pre = true -> lstrip (pre ++ s) = lstrip s.
Proof.
  induction pre as [|c pre IH]; simpl; [reflexivity|].
  rewrite andb_true_iff. intros [-> H]; auto.
Qed.

Lemma rstrip_app_spaces (s post : pystr) :
  forallb isspace post = true -> rstrip (s ++ post) = rstrip s.
Proof.
  intros H. unfold rstrip. rewrite rev_app_distr, lstrip_app_spaces;
    [reflexivity | rewrite forallb_rev; exact H].
Qed.

Lemma lstrip_app (s t : pystr) :
  lstrip (s ++ t) = if forallb isspace s then lstrip t else lstrip s ++ t.
Proof.
  induction s as [|c s IH]; simpl; [reflexivity|].
  destruct (isspace c); simpl; [exact IH | reflexivity].
Qed.

Lemma strip_padded (pre s post : pystr) :
  forallb isspace pre = true -> forallb isspace post = true ->
  strip (pre ++ s ++ post) = strip s.
Proof.
  intros Hpre Hpost. unfold strip.
  rewrite (lstrip_app_spaces _ _ Hpre), lstrip_app.
  destruct (forallb isspace s) eqn:Hs.
  - rewrite (lstrip_spaces _ Hpost), (lstrip_spaces _ Hs); reflexivity.
  - apply rstrip_app_spaces; exact Hpost.
Qed.

(** X8.  Whitespace before and after the payload of a text or thinking
    segment changes nothing: the segment with the padded payload is
    processed exactly as the segment with the bare one. *)
Theorem surrounding_whitespace_ignored
        (r : pystr) (d d' : pydict) (ty : pyval) (field s pre post : pystr)
        (st : state) :
  dict_lookup (lit "type") d = Some ty ->
  dict_lookup (lit "type") d' = Some ty ->
  (py_eq ty (lit "thinking") = true /\ field = lit "thinking"
   \/ py_eq ty (lit "thinking") = false /\ py_eq ty (lit "text") = true
      /\ field = lit "text") ->
  dict_lookup field d = Some (PStr s) ->
  dict_lookup field d' = Some (PStr (pre ++ s ++ post)) ->
  forallb isspace pre = true -> forallb isspace post = true ->
  process_segment r (PDict d') st = process_segment r (PDict d) st.
Proof.
  intros Hty Hty' Hfield Hs Hs' Hpre Hpost.
  unfold process_segment, py_getitem, py_get. rewrite Hty, Hty'. cbn [bind].
  destruct Hfield as [(Hth & ->) | (Hth & Htx & ->)].
  - rewrite Hth, Hs, Hs'. cbn [bind py_strip].
    rewrite (strip_padded _ _ _ Hpre Hpost); reflexivity.
  - rewrite Hth. cbn [bind]. rewrite Htx, Hs, Hs'. cbn [bind py_strip].
    rewrite (strip_padded _ _ _ Hpre Hpost); reflexivity.
Qed.

(* ================================================================= *)
(** ** The preview *)

(** Reading back what [dict_set] wrote. *)
Lemma dict_lookup_set (k k' : pystr) (v : pyval) (m : pydict) :
  dict_lookup k (dict_set k' v m)
  = if str_eqb k k' then Some v else dict_lookup k m.
Proof.
  induction m as [|[k0 v0] m IH]; simpl; [reflexivity|].
  destruct (str_eqb k' k0) eqn:E0; simpl.
  - apply str_eqb_eq in E0; subst k0.
    destruct (str_eqb k k'); reflexivity.
  - rewrite IH. destruct (str_eqb k k0) eqn:E1; [|reflexivity].
    destruct (str_eqb k k') eqn:E2; [|reflexivity].
    apply str_eqb_eq in E1, E2. subst. rewrite str_eqb_refl in E0.
    discriminate.
Qed.

Lemma metadata_loop (d : pydict) (keys : list pystr) (m0 : pydict) :
  exists m,
    for_each (metadata_step (PDict d)) keys m0 = Ok m
    /\ forall k,
        dict_lookup k m
        = if existsb (str_eqb k) keys
          then match dict_lookup k d with
               | Some v => Some v
               | None => dict_lookup k m0
               end
          else dict_lookup k m0.
Proof.
  revert m0; induction keys as [|key keys IH]; intros m0; simpl.
  - exists m0; auto.
  - unfold metadata_step at 1. simpl.
    destruct (dict_lookup key d) as [v|] eqn:Hk; simpl.
    + destruct (IH (dict_set key v m0)) as (m & -> & Hm).
      exists m; split; [reflexivity|]. intros k. rewrite Hm, dict_lookup_set.
      destruct (str_eqb k key) eqn:E; simpl.
      * apply str_eqb_eq in E; subst k. rewrite Hk.
        destruct (existsb _ keys); reflexivity.
      * reflexivity.
    + destruct (IH m0) as (m & -> & Hm).
      exists m; split; [reflexivity|]. intros k. rewrite Hm.
      destruct (str_eqb k key) eqn:E; simpl; [|reflexivity].
      apply str_eqb_eq in E; subst k. rewrite Hk.
      destruct (existsb _ keys); reflexivity.
Qed.

Lemma metadata_total (d : pydict) :
  exists m, extract_metadata (PDict d) = Ok m.
Proof.
  destruct (metadata_loop d metadata_keys []) as (m & Hm & _). eauto.
Qed.

(** X11.  On a dictionary the metadata loop never raises, and the
    metadata it builds hold [uuid], [name], [model] and [created_at] with
    the values of the input, each only when the input has it, and no other
    key. *)
Theorem metadata_of_dictionary (d : pydict) :
  exists m,
    extract_metadata (PDict d) = Ok m
    /\ forall k,
        dict_lookup k m
        = if existsb (str_eqb k) metadata_keys then dict_lookup k d else None.
Proof.
  destruct (metadata_loop d metadata_keys []) as (m & Hm & Hl).
  exists m; split; [exact Hm|]. intros k. rewrite Hl.
  destruct (existsb _ _); [|reflexivity].
  destruct (dict_lookup k d); reflexivity.
Qed.

Lemma metadata_step_raise src key m e :
  metadata_step src key m = Raise e -> e = TypeError.
Proof.
  unfold metadata_step. intros H.
  apply bind_raise in H as [H | (present & Hp & H)].
  { destruct src; simpl in H; try discriminate; injection H as <-;
      reflexivity. }
  destruct present; [|discriminate].
  apply bind_raise in H as [H | (v & _ & H)]; [|discriminate].
  destruct src; simpl in H; try (injection H as <-; reflexivity).
  simpl in Hp. destruct (dict_lookup key d); discriminate.
Qed.

Lemma scan_segments_raise segs e :
  scan_segments segs = Raise e -> e = AttributeError.
Proof.
  induction segs as [|seg segs IH]; simpl; [discriminate|]. intros H.
  apply bind_raise in H as [H | (ty & _ & H)].
  { eapply py_get_raise_attr; eassumption. }
  destruct (py_eq ty (lit "thinking")); [discriminate | auto].
Qed.

Lemma scan_messages_raise msgs e :
  scan_messages msgs = Raise e -> e = TypeError \/ e = AttributeError.
Proof.
  induction msgs as [|msg msgs IH]; simpl; [discriminate|]. intros H.
  apply bind_raise in H as [H | (content & _ & H)].
  { right; eapply py_get_raise_attr; eassumption. }
  apply bind_raise in H as [H | (segs & _ & H)].
  { left; eapply py_iter_raise_type; eassumption. }
  apply bind_raise in H as [H | (found & _ & H)].
  { right; eapply scan_segments_raise; eassumption. }
  destruct found; [discriminate | auto].
Qed.

Lemma preview_raise src e :
  preview src = Raise e -> e = TypeError \/ e = AttributeError.
Proof.
  unfold preview. intros H.
  apply bind_raise in H as [H | (m & _ & H)].
  { left. unfold extract_metadata in H.
    eapply (for_each_raise (metadata_step src) (fun e => e = TypeError));
      [|exact H].
    intros key m0 e'; apply metadata_step_raise. }
  apply bind_raise in H as [H | (present & _ & H)].
  { left. destruct src; simpl in H; try discriminate; injection H as <-;
      reflexivity. }
  apply bind_raise in H as [H | (found & _ & H)].
  { unfold scan_has_thinking in H.
    apply bind_raise in H as [H | (v & _ & H)].
    { right; eapply py_get_raise_attr; eassumption. }
    apply bind_raise in H as [H | (msgs & _ & H)].
    { left; eapply py_iter_raise_type; eassumption. }
    eapply scan_messages_raise; eassumption. }
  apply bind_raise in H as [H | (n & _ & H)]; [|discriminate].
  unfold count_messages in H.
  apply bind_raise in H as [H | (v & _ & H)].
  { right; eapply py_get_raise_attr; eassumption. }
  left. destruct v; simpl in H; try discriminate; injection H as <-;
    reflexivity.
Qed.

(** X10.  The preview raises nothing but [TypeError] and
    [AttributeError], in particular no [KeyError]; and on an input that is
    not a dictionary it always raises, so that for such an input the page
    never gets as far as the conversion. *)
Theorem preview_errors :
  (forall (src : pyval) (e : exn),
      preview src = Raise e -> e = TypeError \/ e = AttributeError)
  /\ (forall src : pyval,
         isinstance_dict src = false -> exists e, preview src = Raise e).
Proof.
  split; [exact preview_raise|].
  intros src Hd. unfold preview.
  destruct (extract_metadata src) as [m|e]; simpl; [|eauto].
  destruct (py_in (lit "chat_messages") src) as [present|e]; simpl; [|eauto].
  destruct src; try discriminate; simpl; eauto.
Qed.

Lemma py_getitem_get (v : pyval) (k : pystr) (x dflt : pyval) :
  py_getitem v k = Ok x -> py_get v k dflt = Ok x.
Proof.
  intros H. apply py_getitem_ok in H as (d & -> & H).
  unfold py_get. rewrite H; reflexivity.
Qed.

Lemma existsb_flat_map {A B} (f : B -> bool) (g : A -> list B) (l : list A) :
  existsb f (flat_map g l) = existsb (fun x => existsb f (g x)) l.
Proof.
  induction l as [|x l IH]; simpl; [reflexivity|].
  rewrite existsb_app, IH; reflexivity.
Qed.

Lemma scan_segments_read (r : pystr) (segs : list pyval) :
  Forall segment_read segs ->
  scan_segments segs
  = Ok (existsb is_thinking (map (fun seg => (r, seg)) segs)).
Proof.
  induction 1 as [|seg segs ((ty & Hty) & _) _ IH]; simpl; [reflexivity|].
  rewrite (py_getitem_get _ _ PNone Hty). cbn [bind].
  unfold is_thinking at 1, seg_variant. cbn [snd]. rewrite Hty.
  destruct (py_eq ty (lit "thinking")); [reflexivity|].
  rewrite IH. destruct (py_eq ty (lit "text")); reflexivity.
Qed.

Lemma scan_messages_read (msgs : list pyval) :
  Forall message_read msgs ->
  scan_messages msgs
  = Ok (existsb is_thinking (flat_map msg_occurrences msgs)).
Proof.
  induction 1 as [|msg msgs (_ & (content & Hc & Hi) & Hsegs) _ IH]; simpl;
    [reflexivity|].
  rewrite Hc. cbn [bind]. rewrite Hi. cbn [bind].
  rewrite (scan_segments_read (resolved_role msg) Hsegs). cbn [bind].
  rewrite existsb_app. fold (msg_occurrences msg).
  destruct (existsb is_thinking (msg_occurrences msg)); [reflexivity|].
  rewrite IH; reflexivity.
Qed.

(** X9.  On every input that the conversion accepts the preview raises
    nothing and agrees with the conversion: it shows no warning, its
    number of messages is [message_count], and its flag says whether some
    segment has the type ["thinking"]; so the flag is set whenever
    [has_thinking] is. *)
Theorem preview_agrees_with_conversion (src : pyval) doc stats :
  convert_claude_to_gemini src = Ok (doc, stats) ->
  exists info,
    preview src = Ok info
    /\ preview_warning info = false
    /\ preview_count info = message_count stats
    /\ preview_thinking info = existsb is_thinking (encounter src)
    /\ (has_thinking stats = true -> preview_thinking info = true).
Proof.
  intros H.
  pose proof (convert_summary _ H) as (_ & _ & Hstats & Hr).
  apply convert_ok in H as (Hv & st & Ht & _).
  unfold validate in Hv.
  destruct src as [| | | | | |d]; try discriminate.
  unfold dict_contains in Hv. cbn [isinstance_dict negb orb] in Hv.
  destruct (dict_lookup (lit "chat_messages") d) as [v|] eqn:Hl;
    [|discriminate].
  unfold traverse, py_get in Ht. rewrite Hl in Ht. cbn [bind] in Ht.
  bind_inv Ht. rename a into msgs.
  assert (Hm : doc_messages (PDict d) = msgs).
  { unfold doc_messages, elements, field_or, py_get. rewrite Hl, Ha.
    reflexivity. }
  rewrite Hm in Hr.
  destruct (metadata_total d) as (m & Hmeta).
  unfold preview, scan_has_thinking, count_messages, py_in, py_get.
  rewrite Hmeta, Hl. cbn [bind]. rewrite Ha. cbn [bind].
  rewrite (scan_messages_read Hr). cbn [bind].
  assert (Hlen : py_len v = Ok (length msgs)).
  { destruct v as [| | | |s|l|[|[k x] d']]; try discriminate;
      injection Ha as <-; simpl; rewrite ?length_map; try reflexivity.
    inversion Hr as [|? ? ((sender & Hs & _) & _) _]. discriminate Hs. }
  rewrite Hlen. cbn [bind]. eexists; split; [reflexivity|]. simpl.
  rewrite Hstats. unfold encounter. rewrite Hm. simpl.
  repeat split.
  intros Hth. apply existsb_exists in Hth as (o & Ho & Hs).
  apply andb_true_iff in Hs as (Hs & _). apply existsb_exists. eauto.
Qed.

(** X13.  On a dictionary without [chat_messages] the preview raises
    nothing: it shows the warning, no thinking segments and zero messages.
    The conversion of the same input then raises the [ValueError] of the
    check. *)
Theorem preview_without_chat_messages (d : pydict) :
  dict_lookup (lit "chat_messages") d = None ->
  (exists info,
      preview (PDict d) = Ok info
      /\ preview_warning info = true
      /\ preview_thinking info = false
      /\ preview_count info = 0)
  /\ convert_claude_to_gemini (PDict d) = Raise (ValueError invalid_input_msg).
Proof.
  intros H. split.
  - destruct (metadata_total d) as (m & Hm).
    unfold preview, scan_has_thinking, count_messages, py_in, py_get.
    rewrite Hm, H. simpl. eexists; split; [reflexivity|]. repeat split.
  - unfold convert_claude_to_gemini, validate, dict_contains.
    rewrite H; reflexivity.
Qed.

Lemma scan_segments_stop (pre post : list pyval) (seg : pyval) :
  scan_segments pre = Ok false -> scan_segments [seg] = Ok true ->
  scan_segments (pre ++ seg :: post) = Ok true.
Proof.
  intros Hpre Hseg. induction pre as [|x pre IH]; simpl in *.
  - destruct (py_get seg (lit "type") PNone) as [ty|e]; simpl in *;
      [|discriminate].
    destruct (py_eq ty (lit "thinking")); [reflexivity | discriminate].
  - destruct (py_get x (lit "type") PNone) as [ty|e]; simpl in *;
      [|discriminate].
    destruct (py_eq ty (lit "thinking")); [discriminate | auto].
Qed.

(** X14.  The search for thinking segments stops at the first one: when
    the messages before a message hold none and that message holds one,
    the flag is set whatever follows in the list, be it values that are no
    messages at all; and within a message, whatever follows the first
    thinking segment. *)
Theorem scan_stops_at_first_thinking :
  (forall (pre post : list pyval) (msg : pyval),
      scan_messages pre = Ok false -> scan_messages [msg] = Ok true ->
      scan_messages (pre ++ msg :: post) = Ok true)
  /\ (forall (pre post : list pyval) (seg : pyval),
         scan_segments pre = Ok false -> scan_segments [seg] = Ok true ->
         scan_segments (pre ++ seg :: post) = Ok true).
Proof.
  split; [|exact scan_segments_stop].
  intros pre post msg Hpre Hmsg. induction pre as [|x pre IH]; simpl in *.
  - destruct (py_get msg (lit "content") (PList [])) as [content|e];
      simpl in *; [|discriminate].
    destruct (py_iter content) as [segs|e]; simpl in *; [|discriminate].
    destruct (scan_segments segs) as [[|]|e]; simpl in *;
      [reflexivity | discriminate | discriminate].
  - destruct (py_get x (lit "content") (PList [])) as [content|e];
      simpl in *; [|discriminate].
    destruct (py_iter content) as [segs|e]; simpl in *; [|discriminate].
    destruct (scan_segments segs) as [[|]|e]; simpl in *;
      [discriminate | auto | discriminate].
Qed.

End Converter.

(* ================================================================= *)
(** ** The name of the download *)

Lemma startswith_app (p t : pystr) : startswith p (p ++ t) = true.
Proof.
  induction p as [|a p IH]; simpl; [reflexivity|].
  rewrite N.eqb_refl, IH; reflexivity.
Qed.

Lemma startswith_split (p s : pystr) :
  startswith p s = true -> exists t, s = p ++ t.
Proof.
  revert s; induction p as [|a p IH]; intros s; simpl; [eauto|].
  destruct s as [|b s]; [discriminate|].
  rewrite andb_true_iff, N.eqb_eq. intros [-> H].
  destruct (IH _ H) as (t & ->). eauto.
Qed.

Lemma endswith_app (p b : pystr) : endswith p (b ++ p) = true.
Proof. unfold endswith. rewrite rev_app_distr. apply startswith_app. Qed.

Lemma endswith_split (p s : pystr) :
  endswith p s = true -> exists b, s = b ++ p.
Proof.
  unfold endswith. intros H. apply startswith_split in H as (t & E).
  exists (rev t). rewrite <- (rev_involutive s), E, rev_app_distr,
    rev_involutive. reflexivity.
Qed.

Lemma occurs_startswith (old s : pystr) :
  startswith old s = true -> occurs old s = true.
Proof. destruct s; simpl; intros ->; reflexivity. Qed.

Lemma occurs_app (old x y : pystr) : occurs old (x ++ old ++ y) = true.
Proof.
  induction x as [|c x IH]; simpl.
  - apply occurs_startswith, startswith_app.
  - rewrite IH, orb_true_r; reflexivity.
Qed.

Lemma replace_from_absent (old new s : pystr) :
  occurs old s = false -> replace_from old new 0 s = s.
Proof.
  induction s as [|c s IH]; simpl; [reflexivity|].
  intros H. apply orb_false_iff in H as [H1 H2].
  simpl in H1. rewrite H1, (IH H2). reflexivity.
Qed.

Lemma replace_from_skip (old new s : pystr) (k : nat) :
  length s <= k -> replace_from old new k s = [].
Proof.
  revert k; induction s as [|c s IH]; intros k; simpl; [reflexivity|].
  destruct k as [|k]; [lia|]. intros H; apply IH; lia.
Qed.

Lemma replace_from_suffix (old new base : pystr) :
  old <> [] -> occurs_early old base old = false ->
  replace_from old new 0 (base ++ old) = base ++ new.
Proof.
  intros Hold. induction base as [|c base IH]; simpl.
  - intros _. destruct old as [|a old']; [congruence|].
    change (replace_from (a :: old') new 0 (a :: old'))
      with (if startswith (a :: old') (a :: old')
            then new ++ replace_from (a :: old') new
                          (length (a :: old') - 1) old'
            else a :: replace_from (a :: old') new 0 old').
    rewrite <- (app_nil_r (a :: old')) at 2. rewrite startswith_app.
    rewrite replace_from_skip; [apply app_nil_r | simpl; lia].
  - intros H. apply orb_false_iff in H as [H1 H2].
    simpl in H1. rewrite H1, (IH H2). reflexivity.
Qed.

Lemma str_replace_nonempty (old new s : pystr) :
  old <> [] -> str_replace old new s = replace_from old new 0 s.
Proof. destruct old; [congruence | reflexivity]. Qed.

Lemma json_suffix_nonempty : lit ".json" <> [].
Proof. discriminate. Qed.

Lemma output_filename_absent (name : pystr) :
  occurs (lit ".json") name = false ->
  output_filename name = name ++ lit "_gemini.json".
Proof.
  intros H. unfold output_filename.
  rewrite (str_replace_nonempty _ _ json_suffix_nonempty),
    (replace_from_absent _ _ _ H).
  destruct (endswith (lit "_gemini.json") name) eqn:E; [|reflexivity].
  apply endswith_split in E as (b & ->).
  change (lit "_gemini.json") with (lit "_gemini" ++ lit ".json" ++ []) in H.
  rewrite app_assoc, occurs_app in H. discriminate.
Qed.

Lemma output_filename_suffix (base : pystr) :
  occurs_early (lit ".json") base (lit ".json") = false ->
  output_filename (base ++ lit ".json") = base ++ lit "_gemini.json".
Proof.
  intros H. unfold output_filename.
  rewrite (str_replace_nonempty _ _ json_suffix_nonempty),
    (@replace_from_suffix _ (lit "_gemini.json") _ json_suffix_nonempty H),
    endswith_app.
  reflexivity.
Qed.

(** X15.  Where the name of the download is the intended one: a name
    that holds [.json] nowhere gets ["_gemini.json"] appended, and a name
    whose only [.json] is its suffix has that suffix replaced by
    ["_gemini.json"]. *)
Lemma output_filename_single_occurrence :
  (forall name : pystr,
      occurs (lit ".json") name = false ->
      output_filename name = name ++ lit "_gemini.json")
  /\ (forall base : pystr,
         occurs_early (lit ".json") base (lit ".json") = false ->
         output_filename (base ++ lit ".json") = base ++ lit "_gemini.json").
Proof. split; [exact output_filename_absent | exact output_filename_suffix]. Qed.

Lemma output_filename_single_occurrence_witness :
  output_filename (lit "notes") = lit "notes_gemini.json"
  /\ output_filename (lit "chat.json") = lit "chat_gemini.json".
Proof.
  split.
  - apply (proj1 output_filename_single_occurrence (lit "notes")); reflexivity.
  - apply (proj2 output_filename_single_occurrence (lit "chat")); reflexivity.
Defined.

(** C9, on a name that holds [.json] twice.  [replace] rewrites every
    occurrence, so ["a.json.json"] becomes ["a_gemini.json_gemini.json"],
    not the name without its suffix followed by ["_gemini.json"]. *)
Theorem output_filename_inner_occurrence :
  output_filename (lit "a.json.json") = lit "a_gemini.json_gemini.json"
  /\ endswith (lit ".json") (lit "a.json.json") = true
  /\ output_filename (lit "a.json.json") <> lit "a.json" ++ lit "_gemini.json".
Proof. repeat split. vm_compute; discriminate. Qed.

(* ================================================================= *)
(** ** What the conversion asks of the tokenizer *)

Lemma for_each_ext {X S} (b1 b2 : X -> S -> result S) :
  (forall x st, b1 x st = b2 x st) ->
  forall xs st, for_each b1 xs st = for_each b2 xs st.
Proof.
  intros H xs; induction xs as [|x xs IH]; intros st; simpl; [reflexivity|].
  rewrite H. destruct (b2 x st); simpl; auto.
Qed.

Lemma count_tokens_ext (enc1 enc2 : pystr -> result (list nat)) (raw : pystr) :
  (forall t, trimmed_text t ->
             encoded_length (enc1 t) = encoded_length (enc2 t)) ->
  truthy (strip raw) = true ->
  count_tokens enc1 (strip raw) = count_tokens enc2 (strip raw).
Proof.
  intros H Ht. unfold count_tokens. rewrite Ht. simpl.
  assert (Htrim : trimmed_text (strip raw)).
  { repeat split; auto using strip_lstrip, strip_rstrip.
    intros E; rewrite E in Ht; discriminate. }
  exact (H _ Htrim).
Qed.

(** X7.  The conversion hands the tokenizer trimmed, non-empty texts
    only, and uses nothing but the number of tokens it returns: two
    tokenizers that return as many tokens, or raise the same exception, on
    every such text give the same result on every input, errors
    included. *)
Theorem tokenizer_seen_on_trimmed_texts
        (enc1 enc2 : pystr -> result (list nat)) :
  (forall t, trimmed_text t ->
             encoded_length (enc1 t) = encoded_length (enc2 t)) ->
  forall src : pyval,
    convert_claude_to_gemini enc1 src = convert_claude_to_gemini enc2 src.
Proof.
  intros H src. unfold convert_claude_to_gemini, traverse.
  destruct (validate src); simpl; [|reflexivity].
  destruct (py_get src (lit "chat_messages") (PList [])) as [v|]; simpl;
    [|reflexivity].
  destruct (py_iter v) as [msgs|]; simpl; [|reflexivity].
  rewrite (for_each_ext (process_message enc1) (process_message enc2));
    [reflexivity|].
  intros msg st. unfold process_message.
  destruct (py_getitem msg (lit "sender")) as [sender|]; simpl;
    [|reflexivity].
  destruct (py_get msg (lit "content") (PList [])) as [content|]; simpl;
    [|reflexivity].
  destruct (py_iter content) as [segs|]; simpl; [|reflexivity].
  apply for_each_ext. intros seg s. unfold process_segment.
  destruct (py_getitem seg (lit "type")) as [ty|]; simpl; [|reflexivity].
  destruct (py_eq ty (lit "thinking")).
  - destruct (py_get seg (lit "thinking") (PStr (lit ""))) as [raw|]; simpl;
      [|reflexivity].
    destruct raw as [| | | |p| |]; simpl; try reflexivity.
    destruct (truthy (strip p)) eqn:Et; [|reflexivity].
    rewrite (count_tokens_ext enc1 enc2 p H Et); reflexivity.
  - destruct (py_eq ty (lit "text")); [|reflexivity].
    destruct (py_get seg (lit "text") (PStr (lit ""))) as [raw|]; simpl;
      [|reflexivity].
    destruct raw as [| | | |p| |]; simpl; try reflexivity.
    destruct (truthy (strip p)) eqn:Et; [|reflexivity].
    rewrite (count_tokens_ext enc1 enc2 p H Et); reflexivity.
Qed.

(* ================================================================= *)
(** ** Every name of a download *)

Lemma length_replace_from (old new : pystr) :
  old <> [] -> length old <= length new ->
  forall (s : pystr) (k : nat),
    length s <= length (replace_from old new k s) + k.
Proof.
  intros Hold Hlen s; induction s as [|c s IH]; intros k; simpl; [lia|].
  destruct k as [|k].
  - destruct (startswith old (c :: s)).
    + rewrite length_app. specialize (IH (length old - 1)).
      destruct old; [congruence | simpl in *; lia].
    + simpl. specialize (IH 0). lia.
  - specialize (IH k). lia.
Qed.

Lemma length_replace_from_occurs (old new : pystr) :
  old <> [] -> length old <= length new ->
  forall s : pystr,
    occurs old s = true ->
    length s + length new <= length (replace_from old new 0 s) + length old.
Proof.
  intros Hold Hlen s; induction s as [|c s IH].
  - destruct old; [congruence | discriminate].
  - intros H.
    change (occurs old (c :: s))
      with (startswith old (c :: s) || occurs old s) in H.
    simpl replace_from.
    destruct (startswith old (c :: s)) eqn:E.
    + rewrite length_app.
      pose proof (length_replace_from new Hold Hlen s (length old - 1)).
      destruct old; [congruence | simpl in *; lia].
    + simpl in H. specialize (IH H). simpl. lia.
Qed.

(** X12.  Whatever the name of the upload, the name of the download ends
    with ["_gemini.json"] and is at least seven code points longer than
    the name of the upload, hence never that name itself. *)
Theorem output_filename_ends_and_grows (name : pystr) :
  endswith (lit "_gemini.json") (output_filename name) = true
  /\ length name + 7 <= length (output_filename name)
  /\ output_filename name <> name.
Proof.
  assert (Hlen : length name + 7 <= length (output_filename name)).
  { destruct (occurs (lit ".json") name) eqn:Ho.
    - unfold output_filename.
      rewrite (str_replace_nonempty _ _ json_suffix_nonempty).
      pose proof (@length_replace_from_occurs (lit ".json") (lit "_gemini.json")
                    json_suffix_nonempty ltac:(simpl; lia) name Ho) as H.
      change (length (lit "_gemini.json")) with 12 in H.
      change (length (lit ".json")) with 5 in H.
      destruct (negb _); rewrite ?length_app; lia.
    - rewrite (output_filename_absent name Ho), length_app.
      change (length (lit "_gemini.json")) with 12. lia. }
  split; [|split; [exact Hlen|]].
  - unfold output_filename.
    destruct (endswith (lit "_gemini.json")
                (str_replace (lit ".json") (lit "_gemini.json") name)) eqn:E;
      simpl; [exact E | apply endswith_app].
  - intros E. rewrite E in Hlen. lia.
Qed.

(* ================================================================= *)
(** ** The theorems on concrete documents *)

(** With [chat_messages] bound to the empty string the input is a
    dictionary with the key and the value is not a list, yet the
    conversion raises nothing and returns the empty document. *)
Lemma empty_string_chat_messages_converts :
  dict_lookup (lit "chat_messages") [(lit "chat_messages", PStr [])]
  = Some (PStr [])
  /\ validate (PDict [(lit "chat_messages", PStr [])]) = Ok tt
  /\ convert_claude_to_gemini word_encode
       (PDict [(lit "chat_messages", PStr [])])
     = Ok (converted_init, token_stats_init)
  /\ ~ (exists e, convert_claude_to_gemini word_encode
                    (PDict [(lit "chat_messages", PStr [])]) = Raise e).
Proof.
  repeat split. intros (e & He). vm_compute in He. discriminate He.
Qed.

(** The sample document is converted: three chunks, and statistics that
    count its three messages. *)
Lemma sample_document_converts :
  exists doc stats,
    convert_claude_to_gemini word_encode sample_document = Ok (doc, stats)
    /\ map (fun c => (text c, role c, isThought c, tokenCount c, finishReason c))
           (chunks (chunkedPrompt doc))
       = [ (lit "Hi", lit "user", None, 1, None);
           (lit "let me think", lit "model", Some true, 3, None);
           (lit "Hello there", lit "model", None, 2, Some (lit "STOP")) ]
    /\ stats = {| total_tokens := 6; user_tokens := 1; model_tokens := 2;
                  thinking_tokens := 3; message_count := 3;
                  has_thinking := true |}.
Proof. eexists; eexists; repeat split. Qed.


Lemma chunks_in_encounter_order_witness :
  (exists doc stats,
      convert_claude_to_gemini word_encode sample_document = Ok (doc, stats)
      /\ length (chunks (chunkedPrompt doc))
         <= length (filter counted (encounter sample_document))
      /\ chunks (chunkedPrompt doc)
         = map (chunk_of word_encode)
               (filter counted (encounter sample_document))
      /\ map (fun c => (text c, role c)) (chunks (chunkedPrompt doc))
         = map (fun o => (seg_text (snd o), fst o))
               (filter counted (encounter sample_document)))
  /\ (valid_document sample_document = true
      /\ tokenizable word_encode sample_document = true
      /\ exists doc stats,
          convert_claude_to_gemini word_encode sample_document
          = Ok (doc, stats))
  /\ (py_getitem (obj [("type", str "image")]%string) (lit "type")
      = Ok (str "image")
      /\ process_segment word_encode (lit "model")
           (obj [("type", str "image")]%string) sample_state
         = Ok sample_state
      /\ counted (lit "model", obj [("type", str "image")]%string) = false).
Proof.
  destruct (chunks_in_encounter_order word_encode) as (H1 & H2 & H3).
  split; [|split].
  - eexists; eexists; split; [vm_compute; reflexivity|].
    eapply H1. vm_compute; reflexivity.
  - split; [reflexivity|]. split; [reflexivity|].
    apply H2; reflexivity.
  - split; [reflexivity|].
    apply (H3 (lit "model") (obj [("type", str "image")]%string)
              (str "image") sample_state);
      reflexivity.
Defined.

Lemma total_tokens_is_sum_witness :
  exists doc stats,
    convert_claude_to_gemini word_encode sample_document = Ok (doc, stats)
    /\ total_tokens stats
       = user_tokens stats + model_tokens stats + thinking_tokens stats.
Proof.
  eexists; eexists; split; [vm_compute; reflexivity|].
  eapply (total_tokens_is_sum word_encode sample_document).
  vm_compute; reflexivity.
Defined.



Lemma invalid_input_rejected_witness :
  convert_claude_to_gemini word_encode (PList [])
  = Raise (ValueError invalid_input_msg)
  /\ convert_claude_to_gemini word_encode (obj [("name", str "chat")]%string)
     = Raise (ValueError invalid_input_msg)
  /\ validate sample_document = Ok tt
  /\ validate refused_document = Ok tt
  /\ convert_claude_to_gemini word_encode refused_document
     = Raise (ValueError disallowed_token_msg)
  /\ exists t, trimmed_text t
               /\ word_encode t = Raise (ValueError disallowed_token_msg).
Proof.
  destruct (invalid_input_rejected word_encode) as (H1 & H2).
  split; [|split; [|split; [|split; [|split]]]].
  - apply (H1 (PList [])). left; reflexivity.
  - apply (H1 (obj [("name", str "chat")]%string)). right; reflexivity.
  - apply (H2 sample_document); reflexivity.
  - apply (H2 refused_document); reflexivity.
  - reflexivity.
  - apply (H2 refused_document); reflexivity.
Defined.

Lemma strict_and_defaulted_lookups_witness :
  process_message word_encode (obj [("content", PList [])]%string) sample_state
  = Raise (KeyError (lit "sender"))
  /\ process_segment word_encode (lit "user")
       (obj [("text", str "Hi")]%string) sample_state
     = Raise (KeyError (lit "type"))
  /\ convert_claude_to_gemini word_encode
       (obj [("chat_messages",
              PList [sample_message; obj [("content", PList [])];
                     sample_message])]%string)
     = Raise (KeyError (lit "sender"))
  /\ convert_claude_to_gemini word_encode
       (obj [("chat_messages",
              PList [sample_message;
                     obj [("sender", str "assistant");
                          ("content",
                           PList [obj [("type", str "text");
                                       ("text", str "Hello")];
                                  obj [("text", str "Hi")]])]])]%string)
     = Raise (KeyError (lit "type"))
  /\ process_message word_encode (obj [("sender", str "human")]%string)
       sample_state
     = Ok (with_stats incr_message_count sample_state)
  /\ process_segment word_encode (lit "model")
       (obj [("type", str "thinking")]%string) sample_state
     = Ok sample_state
  /\ process_segment word_encode (lit "model")
       (obj [("type", str "text")]%string) sample_state
     = Ok sample_state.
Proof.
  destruct (strict_and_defaulted_lookups word_encode)
    as (H1 & H2 & H3 & H4 & H5 & H6 & H7).
  repeat apply conj.
  - apply H1; reflexivity.
  - apply H2; reflexivity.
  - eapply (H3 _ [sample_message] [sample_message]); reflexivity.
  - eapply (H4 _ [sample_message] [] _ (str "assistant")
               [obj [("type", str "text"); ("text", str "Hello")]%string] []);
      reflexivity.
  - eapply H5; reflexivity.
  - eapply H6; reflexivity.
  - eapply H7; reflexivity.
Defined.

Lemma fixed_envelope_witness :
  exists doc stats,
    convert_claude_to_gemini word_encode sample_document = Ok (doc, stats)
    /\ temperature (runSettings doc) = float_1_0
    /\ topP (runSettings doc) = float_0_95
    /\ topK (runSettings doc) = 64%Z
    /\ systemInstruction doc = []
    /\ pendingInputs (chunkedPrompt doc)
       = [ {| pending_text := lit ""; pending_role := lit "user" |} ].
Proof.
  pose proof (fixed_envelope word_encode sample_document) as H.
  eexists; eexists; split; [vm_compute; reflexivity|].
  specialize (H _ _ ltac:(vm_compute; reflexivity)).
  destruct H as (Hrs & Hsi & Hpi).
  rewrite Hrs; repeat split; assumption.
Defined.

Lemma chat_messages_value_unchecked_witness :
  dict_lookup (lit "chat_messages") [(lit "chat_messages", PNone)] = Some PNone
  /\ validate (PDict [(lit "chat_messages", PNone)]) = Ok tt
  /\ convert_claude_to_gemini word_encode (PDict [(lit "chat_messages", PNone)])
     = Raise TypeError
  /\ convert_claude_to_gemini word_encode
       (PDict [(lit "chat_messages", PList [sample_message; PInt 5])])
     = Raise TypeError.
Proof.
  split; [reflexivity|].
  destruct (@chat_messages_value_unchecked word_encode
              [(lit "chat_messages", PNone)] PNone eq_refl) as (H1 & H2 & _).
  split; [exact H1|]. split; [exact H2|].
  destruct (@chat_messages_value_unchecked word_encode
              [(lit "chat_messages", PList [sample_message; PInt 5])]
              (PList [sample_message; PInt 5]) eq_refl) as (_ & _ & H3).
  eapply (H3 [sample_message] [] (PInt 5)); reflexivity.
Defined.

Lemma statistics_from_chunks_witness :
  exists doc stats,
    convert_claude_to_gemini word_encode sample_document = Ok (doc, stats)
    /\ total_tokens stats
       = chunk_tokens (fun _ => true) (chunks (chunkedPrompt doc))
    /\ thinking_tokens stats
       = chunk_tokens chunk_is_thought (chunks (chunkedPrompt doc))
    /\ user_tokens stats
       = chunk_tokens chunk_is_user_text (chunks (chunkedPrompt doc))
    /\ model_tokens stats
       = chunk_tokens chunk_has_finish_reason (chunks (chunkedPrompt doc))
    /\ (has_thinking stats = true <->
        exists c, In c (chunks (chunkedPrompt doc))
                  /\ isThought c = Some true).
Proof.
  eexists; eexists; split; [vm_compute; reflexivity|].
  eapply (statistics_from_chunks word_encode sample_document).
  vm_compute; reflexivity.
Defined.

Lemma no_thinking_no_thinking_tokens_witness :
  exists doc stats,
    convert_claude_to_gemini word_encode
      (obj [("chat_messages", PList [sample_message])]%string)
    = Ok (doc, stats)
    /\ has_thinking stats = false
    /\ thinking_tokens stats = 0.
Proof.
  eexists; eexists; split; [vm_compute; reflexivity|].
  split; [reflexivity|].
  eapply (no_thinking_no_thinking_tokens word_encode
            (obj [("chat_messages", PList [sample_message])]%string));
    [vm_compute; reflexivity | reflexivity].
Defined.

Lemma unread_fields_do_not_matter_witness :
  convert_claude_to_gemini word_encode
    (obj [("uuid", str "1234"); ("name", str "A chat");
          ("chat_messages", PList [sample_message])]%string)
  = convert_claude_to_gemini word_encode
      (obj [("chat_messages", PList [sample_message])]%string)
  /\ process_message word_encode
       (obj [("uuid", str "5"); ("sender", str "human")]%string) sample_state
     = process_message word_encode (obj [("sender", str "human")]%string)
         sample_state
  /\ process_segment word_encode (lit "user")
       (obj [("type", str "text"); ("text", str "Hi");
             ("citations", PList [])]%string) sample_state
     = process_segment word_encode (lit "user")
         (obj [("type", str "text"); ("text", str "Hi")]%string) sample_state.
Proof.
  destruct (unread_fields_do_not_matter word_encode) as (H1 & H2 & H3).
  split; [|split].
  - apply H1; reflexivity.
  - apply H2; reflexivity.
  - apply H3; reflexivity.
Defined.

Lemma conversion_of_concatenation_witness :
  exists doc stats,
    convert_claude_to_gemini word_encode
      (obj [("chat_messages",
             PList ([sample_message]
                    ++ [obj [("sender", str "assistant")]]))]%string)
    = Ok (doc, stats)
    /\ message_count stats = 1 + 1
    /\ total_tokens stats = 1 + 0.
Proof.
  pose proof (@conversion_of_concatenation word_encode
                [(lit "chat_messages", PList [sample_message])]
                [(lit "chat_messages",
                  PList [obj [("sender", str "assistant")]%string])]
                [(lit "chat_messages",
                  PList ([sample_message]
                         ++ [obj [("sender", str "assistant")]%string]))]
                [sample_message] [obj [("sender", str "assistant")]%string]
                eq_refl eq_refl eq_refl) as H.
  destruct (convert_claude_to_gemini word_encode
              (PDict [(lit "chat_messages", PList [sample_message])]))
    as [[doc1 stats1]|e1] eqn:E1; [|vm_compute in E1; discriminate E1].
  destruct (convert_claude_to_gemini word_encode
              (PDict [(lit "chat_messages",
                       PList [obj [("sender", str "assistant")]%string])]))
    as [[doc2 stats2]|e2] eqn:E2; [|vm_compute in E2; discriminate E2].
  destruct H as (doc & stats & Hc & _ & Ht & _ & _ & _ & Hm & _).
  exists doc, stats. split; [exact Hc|].
  vm_compute in E1, E2. injection E1 as _ <-. injection E2 as _ <-.
  split; [exact Hm | exact Ht].
Defined.

Lemma conversion_succeeds_iff_witness :
  readable_document sample_document = true
  /\ tokenizable word_encode sample_document = true
  /\ exists doc stats,
      convert_claude_to_gemini word_encode sample_document = Ok (doc, stats).
Proof.
  split; [reflexivity|]. split; [reflexivity|].
  apply (proj2 (conversion_succeeds_iff word_encode sample_document)).
  split; reflexivity.
Defined.

Lemma conversion_errors_witness :
  (convert_claude_to_gemini word_encode (PList [])
   = Raise (ValueError invalid_input_msg)
   /\ validate (PList []) = Raise (ValueError invalid_input_msg))
  /\ (convert_claude_to_gemini word_encode
        (obj [("chat_messages", PList [obj [("content", PList [])]])]%string)
      = Raise (KeyError (lit "sender")))
  /\ (convert_claude_to_gemini word_encode refused_document
      = Raise (ValueError disallowed_token_msg)
      /\ validate refused_document = Ok tt
      /\ exists t, trimmed_text t
                   /\ word_encode t = Raise (ValueError disallowed_token_msg)).
Proof.
  split; [|split].
  - split; [reflexivity|].
    destruct (@conversion_errors word_encode (PList [])
                (ValueError invalid_input_msg) eq_refl)
      as [(_ & Hv) | (Hv & _)]; [exact Hv | discriminate Hv].
  - reflexivity.
  - split; [reflexivity|]. split; [reflexivity|].
    destruct (@conversion_errors word_encode refused_document
                (ValueError disallowed_token_msg) eq_refl)
      as [(_ & Hv) | (_ & [E | [E | [E | [E | Ht]]]])];
      [discriminate Hv | discriminate E | discriminate E | discriminate E
      | discriminate E | exact Ht].
Defined.

Lemma tokenizer_seen_on_trimmed_texts_witness :
  convert_claude_to_gemini word_encode sample_document
  = convert_claude_to_gemini
      (fun t => match t with
                | [] => Raise TypeError
                | _ :: _ => word_encode t
                end)
      sample_document.
Proof.
  apply (tokenizer_seen_on_trimmed_texts word_encode
           (fun t => match t with
                     | [] => Raise TypeError
                     | _ :: _ => word_encode t
                     end)).
  intros t (Hne & _). destruct t; [congruence | reflexivity].
Defined.

Lemma surrounding_whitespace_ignored_witness :
  process_segment word_encode (lit "user")
    (obj [("type", str "text"); ("text", str "  Hi ")]%string) sample_state
  = process_segment word_encode (lit "user")
      (obj [("type", str "text"); ("text", str "Hi")]%string) sample_state.
Proof.
  apply (@surrounding_whitespace_ignored word_encode (lit "user")
           [(lit "type", str "text"); (lit "text", str "Hi")]
           [(lit "type", str "text"); (lit "text", str "  Hi ")]
           (str "text") (lit "text") (lit "Hi") (lit "  ") (lit " ")
           sample_state);
    try reflexivity.
  right; repeat split.
Defined.

Lemma preview_agrees_with_conversion_witness :
  exists doc stats info,
    convert_claude_to_gemini word_encode sample_document = Ok (doc, stats)
    /\ preview sample_document = Ok info
    /\ preview_warning info = false
    /\ preview_count info = message_count stats
    /\ preview_thinking info = existsb is_thinking (encounter sample_document)
    /\ (has_thinking stats = true -> preview_thinking info = true).
Proof.
  pose proof (preview_agrees_with_conversion word_encode sample_document) as H.
  eexists; eexists.
  specialize (H _ _ ltac:(vm_compute; reflexivity)).
  destruct H as (info & H). exists info.
  split; [vm_compute; reflexivity | exact H].
Defined.

Lemma preview_errors_witness :
  exists e, preview (PList [str "uuid"]) = Raise e
            /\ (e = TypeError \/ e = AttributeError).
Proof.
  destruct (proj2 preview_errors (PList [str "uuid"]) eq_refl) as (e & He).
  exists e. split; [exact He | exact (proj1 preview_errors _ _ He)].
Defined.

Lemma preview_without_chat_messages_witness :
  (exists info,
      preview (obj [("name", str "A chat")]%string) = Ok info
      /\ preview_warning info = true
      /\ preview_thinking info = false
      /\ preview_count info = 0)
  /\ convert_claude_to_gemini word_encode (obj [("name", str "A chat")]%string)
     = Raise (ValueError invalid_input_msg).
Proof.
  apply (preview_without_chat_messages word_encode
           [(lit "name", str "A chat")]).
  reflexivity.
Defined.

Lemma scan_stops_at_first_thinking_witness :
  scan_messages
    ([sample_message]
       ++ obj [("content", PList [obj [("type", str "thinking")]])]%string
       :: [PInt 3; PNone])
  = Ok true
  /\ scan_segments
       ([obj [("type", str "text")]%string]
          ++ obj [("type", str "thinking")]%string :: [PInt 3])
     = Ok true.
Proof.
  split.
  - apply (proj1 scan_stops_at_first_thinking); reflexivity.
  - apply (proj2 scan_stops_at_first_thinking); reflexivity.
Defined.
